(** * ITech-Gadgets-Hub: the order lifecycle of the backend

    A shallow embedding of [backend/config/stripe.js] and of the order
    controller (addOrderItems, getOrderById, updateOrderToPaid,
    updateOrderToDelivered, processOrderRefund, cancelOrder), followed by
    the properties of the order lifecycle: stock accounting, the refund
    guard, the behaviour on gateway failure and the conversion of amounts
    to minor units.

    - JavaScript Numbers that carry money are IEEE-754 binary64 values
      ([float]); quantities and stock counts are integers ([Z]).
    - The MongoDB collections are finite maps from the document id to the
      document ([gmap string _]).
    - An Express handler is a computation over the collections and the
      response status that either returns a body or throws. *)

From Stdlib Require Import ZArith Floats Uint63.
From stdpp Require Import gmap strings list fin_maps.

Local Open Scope string_scope.
Local Open Scope Z_scope.
Local Open Scope list_scope.

(** ** JavaScript values *)

(** The values a property read can give in the code below. *)
Inductive JsValue :=
| JsUndefined
| JsNumber (n : Z)
| JsString (s : string).

(** [s.key] for a string primitive [s]: strings have a [length]; the names
    the controller reads ([id], [client_secret]) are not properties of a
    string, so the read gives [undefined]. *)
Definition String_get (s : string) (key : string) : JsValue :=
  if String.eqb key "length" then JsNumber (Z.of_nat (String.length s))
  else JsUndefined.

(** An integral Number, the result of [Math.round]. *)
Inductive Integral :=
| IntNaN
| IntInfinity (negative : bool)
| IntZ (z : Z).

(** [Math.round(x)]: the integer closest to [x], ties towards +Infinity,
    that is [floor(x + 1/2)] computed without rounding error. A finite
    binary64 value is [±m·2^e]. *)
Definition Math_round (x : float) : Integral :=
  match Prim2SF x with
  | S754_nan => IntNaN
  | S754_infinity s => IntInfinity s
  | S754_zero _ => IntZ 0
  | S754_finite s m e =>
      let v := if s then Z.neg m else Z.pos m in
      if 0 <=? e then IntZ (v * 2 ^ e)
      else IntZ ((2 * v + 2 ^ (- e)) / 2 ^ (- e + 1))
  end.

(** The Number a decimal literal [m / 10^d] denotes (as [JSON.parse] reads
    the request body): the binary64 value nearest to it. Both operands are
    exact for [|m| < 2^53] and [d <= 22], and the division rounds
    correctly. *)
Definition Number_of_decimal (m : Z) (d : nat) : float :=
  let q := (PrimFloat.of_uint63 (Uint63.of_Z (Z.abs m))
            / PrimFloat.of_uint63 (Uint63.of_Z (10 ^ Z.of_nat d)))%float in
  if m <? 0 then (- q)%float else q.

(** ** backend/config/stripe.js *)

Record JsError := { message : string }.

Record PaymentIntentParams := {
  pi_amount : Integral;
  pi_currency : string
}.

Record RefundParams := {
  payment_intent : JsValue;
  refund_amount : Integral
}.

Record PaymentIntent := {
  intent_id : string;
  client_secret : string
}.

Record Refund := {
  refund_id : string;
  refund_status : string
}.

(** The Stripe client: what the two endpoints answer to a request. *)
Record Stripe := {
  paymentIntents_create : PaymentIntentParams → JsError + PaymentIntent;
  refunds_create : RefundParams → JsError + Refund
}.

(** The object literal passed to [stripe.paymentIntents.create]. *)
Definition paymentIntentParams (amount : float) (currency : string)
  : PaymentIntentParams :=
  {| pi_amount := Math_round (amount * 100)%float;
     pi_currency := currency |}.

(** The object literal passed to [stripe.refunds.create]. *)
Definition refundParams (paymentIntentId : JsValue) (amount : float)
  : RefundParams :=
  {| payment_intent := paymentIntentId;
     refund_amount := Math_round (amount * 100)%float |}.

(** [createPaymentIntent]: returns [paymentIntent.client_secret], a string;
    a gateway error is logged and thrown again. *)
Definition createPaymentIntent (stripe : Stripe) (amount : float)
    (currency : string) : JsError + string :=
  match paymentIntents_create stripe (paymentIntentParams amount currency) with
  | inr paymentIntent => inr (client_secret paymentIntent)
  | inl error => inl error
  end.

(** [processRefund]: returns the refund object; a gateway error is logged
    and thrown again. *)
Definition processRefund (stripe : Stripe) (paymentIntentId : JsValue)
    (amount : float) : JsError + Refund :=
  match refunds_create stripe (refundParams paymentIntentId amount) with
  | inr refund => inr refund
  | inl error => inl error
  end.

(** ** The collections *)

(** models/productModel.js is not among the sources. *)
(** Modelled from the spec: the Product schema, of which the controller
    reads [name] and reads and writes [countInStock] (section 3: "Product:
    identifier, name, price, countInStock"). *)
Record Product := {
  name : string;
  countInStock : Z
}.

Record OrderItem := {
  item_name : string;
  quantity : Z;
  item_image : string;
  item_price : float;
  product : string
}.

(** Modelled from the spec: the values of [orderStatus] (section 3: "enum:
    Placed, Shipped, Delivered, Canceled, Refunded"); the controller writes
    'Delivered', 'Refunded' and 'Canceled' and tests for 'Shipped' and
    'Delivered'. *)
Inductive OrderStatus := Placed | Shipped | Delivered | Canceled | Refunded.

Global Instance OrderStatus_eq_dec : EqDecision OrderStatus.
Proof. solve_decision. Defined.

Record PaymentResult := {
  pr_id : JsValue;
  pr_status : JsValue;
  update_time : JsValue;
  email_address : JsValue
}.

Record RefundResult := {
  rr_id : string;
  rr_status : string
}.

(** An Order document (without its [_id], which is its key in the
    collection). Dates are milliseconds since the epoch. *)
Record Order := {
  orderItems : list OrderItem;
  user : string;
  shippingAddress : string;
  paymentMethod : string;
  itemsPrice : float;
  taxPrice : float;
  shippingPrice : float;
  totalPrice : float;
  isPaid : bool;
  paidAt : option Z;
  isDelivered : bool;
  deliveredAt : option Z;
  isRefunded : bool;
  refundedAt : option Z;
  canceledAt : option Z;
  orderStatus : OrderStatus;
  paymentResult : option PaymentResult;
  refundResult : option RefundResult
}.

Record User := {
  firstName : string;
  lastName : string;
  email : string;
  user_role : string
}.

Record Store := {
  products : gmap string Product;
  orders : gmap string Order;
  users : gmap string User
}.

Definition set_products (f : gmap string Product → gmap string Product)
    (s : Store) : Store :=
  {| products := f (products s); orders := orders s; users := users s |}.

Definition set_orders (f : gmap string Order → gmap string Order)
    (s : Store) : Store :=
  {| products := products s; orders := f (orders s); users := users s |}.

(** ** Handlers as computations *)

(** What a handler works on: the collections and [res.statusCode]. *)
Record Ctx := {
  db : Store;
  statusCode : nat
}.

(** A computation runs from a context to a context and either returns a
    value or throws. *)
Definition M (A : Type) : Type := Ctx → Ctx * (JsError + A).

Global Instance M_ret : MRet M := λ A a c, (c, inr a).

Global Instance M_bind : MBind M := λ A B f m c,
  match m c with
  | (c', inr a) => f a c'
  | (c', inl e) => (c', inl e)
  end.

(** [throw new Error(msg)] *)
Definition throw {A} (msg : string) : M A :=
  λ c, (c, inl {| message := msg |}).

(** [try { body } catch (error) { handler }] *)
Definition try_catch {A} (body : M A) (handler : JsError → M A) : M A :=
  λ c, match body c with
       | (c', inl e) => handler e c'
       | r => r
       end.

(** Awaiting a call to a helper of stripe.js: its result or its error. *)
Definition await {A} (r : JsError + A) : M A := λ c, (c, r).

(** [res.status(n)] *)
Definition res_status (n : nat) : M unit :=
  λ c, ({| db := db c; statusCode := n |}, inr ()).

Definition Product_findById (id : string) : M (option Product) :=
  λ c, (c, inr (products (db c) !! id)).

(** [product.save()] for a document read under [id]. *)
Definition Product_save (id : string) (p : Product) : M unit :=
  λ c, ({| db := set_products <[id := p]> (db c); statusCode := statusCode c |},
        inr ()).

Definition Order_findById (id : string) : M (option Order) :=
  λ c, (c, inr (orders (db c) !! id)).

(** [order.save()] for a document read under [id]. *)
Definition Order_save (id : string) (o : Order) : M unit :=
  λ c, ({| db := set_orders <[id := o]> (db c); statusCode := statusCode c |},
        inr ()).

(** [order.save()] for a document made by [new Order]: an insert, which
    MongoDB refuses when the [_id] is taken. *)
Definition Order_insert (id : string) (o : Order) : M unit :=
  λ c, match orders (db c) !! id with
       | Some _ => (c, inl {| message := "E11000 duplicate key error" |})
       | None =>
           ({| db := set_orders <[id := o]> (db c); statusCode := statusCode c |},
            inr ())
       end.

Definition User_findById (id : string) : M (option User) :=
  λ c, (c, inr (users (db c) !! id)).

(** [for (const x of l) { body }] *)
Fixpoint for_of {A} (l : list A) (body : A → M unit) : M unit :=
  match l with
  | [] => mret ()
  | x :: l' => body x;; for_of l' body
  end.

(** What a request ends in: a response that was sent, or an error handed
    to Express together with the status the handler had set (200 when it
    had set none). *)
Inductive Outcome (B : Type) :=
| Sent (status : nat) (body : B)
| Failed (status : nat) (error : JsError).
Arguments Sent {B} status body.
Arguments Failed {B} status error.

(** [asyncHandler(fn)]: runs [fn] on a fresh response and passes what it
    throws on to Express. *)
Definition asyncHandler {B} (fn : M B) (s : Store) : Store * Outcome B :=
  match fn {| db := s; statusCode := 200 |} with
  | (c, inr body) => (db c, Sent (statusCode c) body)
  | (c, inl e) => (db c, Failed (statusCode c) e)
  end.

(** ** utils/sendEmail.js *)

(** [sendOrderConfirmationEmail] builds a message and sends it; a failure
    of the transport is caught and logged. The collections are not
    touched. *)
Definition sendOrderConfirmationEmail (order : string * Order)
    (to : string) : M unit := mret ().

(** [sendOrderStatusUpdateEmail] and [sendRefundConfirmationEmail] are
    imported by the controller but not defined in the sources. *)
(** Modelled from the spec: the status-update notification (section 5:
    "The Notifier is fire-and-forget relative to the operation's success -
    its failure is logged, never escalated"). *)
Definition sendOrderStatusUpdateEmail (order : string * Order)
    (to : string) : M unit := mret ().

(** Modelled from the spec: the refund-confirmation notification (section
    5, as above). *)
Definition sendRefundConfirmationEmail (order : string * Order)
    (to : string) : M unit := mret ().

(** ** The order controller *)

(** [req.user], as the authentication middleware leaves it. *)
Record ReqUser := {
  _id : string;
  role : string
}.

(** [req.body] of POST /api/orders. *)
Record OrderBody := {
  req_orderItems : option (list OrderItem);
  req_shippingAddress : string;
  req_paymentMethod : string;
  req_itemsPrice : float;
  req_taxPrice : float;
  req_shippingPrice : float;
  req_totalPrice : float
}.

(** [req.body] of PUT /api/orders/:id/pay; [payer] is the value of
    [req.body.payer.email_address] when [req.body.payer] is an object. *)
Record PayBody := {
  pay_id : JsValue;
  pay_status : JsValue;
  pay_update_time : JsValue;
  payer : option JsValue
}.

(** The body of the 201 response of addOrderItems. *)
Record Placement := {
  order : string * Order;
  clientSecret : JsValue
}.

(** models/orderModel.js is not among the sources. *)
(** Modelled from the spec: [new Order({...})] with the defaults of the
    Order schema (section 4.1: "a new Order with orderStatus = Placed,
    isPaid = false"; an order starts neither delivered nor refunded and
    without dates or results). *)
Definition new_Order (items : list OrderItem) (owner : string)
    (body : OrderBody) : Order :=
  {| orderItems := items;
     user := owner;
     shippingAddress := req_shippingAddress body;
     paymentMethod := req_paymentMethod body;
     itemsPrice := req_itemsPrice body;
     taxPrice := req_taxPrice body;
     shippingPrice := req_shippingPrice body;
     totalPrice := req_totalPrice body;
     isPaid := false;
     paidAt := None;
     isDelivered := false;
     deliveredAt := None;
     isRefunded := false;
     refundedAt := None;
     canceledAt := None;
     orderStatus := Placed;
     paymentResult := None;
     refundResult := None |}.

Definition set_countInStock (n : Z) (p : Product) : Product :=
  {| name := name p; countInStock := n |}.

(** [order.paymentResult = pr] *)
Definition set_paymentResult (pr : PaymentResult) (o : Order) : Order :=
  {| orderItems := orderItems o; user := user o;
     shippingAddress := shippingAddress o; paymentMethod := paymentMethod o;
     itemsPrice := itemsPrice o; taxPrice := taxPrice o;
     shippingPrice := shippingPrice o; totalPrice := totalPrice o;
     isPaid := isPaid o; paidAt := paidAt o;
     isDelivered := isDelivered o; deliveredAt := deliveredAt o;
     isRefunded := isRefunded o; refundedAt := refundedAt o;
     canceledAt := canceledAt o; orderStatus := orderStatus o;
     paymentResult := Some pr; refundResult := refundResult o |}.

(** [order.isPaid = true; order.paidAt = now] *)
Definition set_paid (now : Z) (o : Order) : Order :=
  {| orderItems := orderItems o; user := user o;
     shippingAddress := shippingAddress o; paymentMethod := paymentMethod o;
     itemsPrice := itemsPrice o; taxPrice := taxPrice o;
     shippingPrice := shippingPrice o; totalPrice := totalPrice o;
     isPaid := true; paidAt := Some now;
     isDelivered := isDelivered o; deliveredAt := deliveredAt o;
     isRefunded := isRefunded o; refundedAt := refundedAt o;
     canceledAt := canceledAt o; orderStatus := orderStatus o;
     paymentResult := paymentResult o; refundResult := refundResult o |}.

(** [order.isDelivered = true; order.deliveredAt = now;
    order.orderStatus = 'Delivered'] *)
Definition set_delivered (now : Z) (o : Order) : Order :=
  {| orderItems := orderItems o; user := user o;
     shippingAddress := shippingAddress o; paymentMethod := paymentMethod o;
     itemsPrice := itemsPrice o; taxPrice := taxPrice o;
     shippingPrice := shippingPrice o; totalPrice := totalPrice o;
     isPaid := isPaid o; paidAt := paidAt o;
     isDelivered := true; deliveredAt := Some now;
     isRefunded := isRefunded o; refundedAt := refundedAt o;
     canceledAt := canceledAt o; orderStatus := Delivered;
     paymentResult := paymentResult o; refundResult := refundResult o |}.

(** [order.isRefunded = true; order.refundedAt = now;
    order.orderStatus = 'Refunded'; order.refundResult = rr] *)
Definition set_refunded (now : Z) (rr : RefundResult) (o : Order) : Order :=
  {| orderItems := orderItems o; user := user o;
     shippingAddress := shippingAddress o; paymentMethod := paymentMethod o;
     itemsPrice := itemsPrice o; taxPrice := taxPrice o;
     shippingPrice := shippingPrice o; totalPrice := totalPrice o;
     isPaid := isPaid o; paidAt := paidAt o;
     isDelivered := isDelivered o; deliveredAt := deliveredAt o;
     isRefunded := true; refundedAt := Some now;
     canceledAt := canceledAt o; orderStatus := Refunded;
     paymentResult := paymentResult o; refundResult := Some rr |}.

(** [order.orderStatus = 'Canceled'; order.canceledAt = now] *)
Definition set_canceled (now : Z) (o : Order) : Order :=
  {| orderItems := orderItems o; user := user o;
     shippingAddress := shippingAddress o; paymentMethod := paymentMethod o;
     itemsPrice := itemsPrice o; taxPrice := taxPrice o;
     shippingPrice := shippingPrice o; totalPrice := totalPrice o;
     isPaid := isPaid o; paidAt := paidAt o;
     isDelivered := isDelivered o; deliveredAt := deliveredAt o;
     isRefunded := isRefunded o; refundedAt := refundedAt o;
     canceledAt := Some now; orderStatus := Canceled;
     paymentResult := paymentResult o; refundResult := refundResult o |}.

(** The body of the first loop of addOrderItems. *)
Definition check_item (item : OrderItem) : M unit :=
  found ← Product_findById (product item);
  match found with
  | None =>
      res_status 404;;
      throw ("Product not found: " +:+ product item)
  | Some p =>
      if countInStock p <? quantity item then
        res_status 400;;
        throw ("Insufficient stock for product: " +:+ name p)
      else mret ()
  end.

(** The body of the second loop of addOrderItems; reading [countInStock]
    of [null] would be a TypeError. *)
Definition debit_item (item : OrderItem) : M unit :=
  found ← Product_findById (product item);
  match found with
  | None => throw "Cannot read properties of null (reading 'countInStock')"
  | Some p =>
      Product_save (product item)
        (set_countInStock (countInStock p - quantity item) p)
  end.

(** The body of the restocking loop of processOrderRefund and cancelOrder. *)
Definition credit_item (item : OrderItem) : M unit :=
  found ← Product_findById (product item);
  match found with
  | None => mret ()
  | Some p =>
      Product_save (product item)
        (set_countInStock (countInStock p + quantity item) p)
  end.

(** The callback of [orderItems.map] in addOrderItems. *)
Definition copy_item (item : OrderItem) : OrderItem :=
  {| item_name := item_name item;
     quantity := quantity item;
     item_image := item_image item;
     item_price := item_price item;
     product := product item |}.

(** POST /api/orders. [new_id] is the [_id] that [new Order] generates. *)
Definition addOrderItems_fn (stripe : Stripe) (new_id : string)
    (req_user : ReqUser) (body : OrderBody) : M Placement :=
  match req_orderItems body with
  | None | Some [] =>
      res_status 400;;
      throw "No order items"
  | Some items =>
      for_of items check_item;;
      let order0 := new_Order (copy_item <$> items) (_id req_user) body in
      for_of items debit_item;;
      paymentIntent ← await (createPaymentIntent stripe (req_totalPrice body) "usd");
      let order1 :=
        set_paymentResult
          {| pr_id := String_get paymentIntent "id";
             pr_status := JsString "pending";
             update_time := JsUndefined;
             email_address := JsUndefined |} order0 in
      Order_insert new_id order1;;
      sendOrderConfirmationEmail (new_id, order1) (_id req_user);;
      res_status 201;;
      mret {| order := (new_id, order1);
              clientSecret := String_get paymentIntent "client_secret" |}
  end.

Definition addOrderItems (stripe : Stripe) (new_id : string)
    (req_user : ReqUser) (body : OrderBody) : Store → Store * Outcome Placement :=
  asyncHandler (addOrderItems_fn stripe new_id req_user body).

(** GET /api/orders/:id. [populate('user', ...)] replaces [order.user] by
    the user's document, or by [null] when there is none; reading [_id] of
    [null] is a TypeError. *)
Definition getOrderById_fn (req_user : ReqUser) (id : string)
    : M (string * Order * User) :=
  found ← Order_findById id;
  match found with
  | None =>
      res_status 404;;
      throw "Order not found"
  | Some o =>
      owner ← User_findById (user o);
      match owner with
      | None => throw "Cannot read properties of null (reading '_id')"
      | Some u =>
          if negb (String.eqb (user o) (_id req_user))
             && negb (String.eqb (role req_user) "admin")
          then
            res_status 403;;
            throw "Not authorized to view this order"
          else mret (id, o, u)
      end
  end.

Definition getOrderById (req_user : ReqUser) (id : string)
    : Store → Store * Outcome (string * Order * User) :=
  asyncHandler (getOrderById_fn req_user id).

(** PUT /api/orders/:id/pay *)
Definition updateOrderToPaid_fn (now : Z) (req_user : ReqUser) (id : string)
    (body : PayBody) : M (string * Order) :=
  found ← Order_findById id;
  match found with
  | None =>
      res_status 404;;
      throw "Order not found"
  | Some o =>
      match payer body with
      | None => throw "Cannot read properties of undefined (reading 'email_address')"
      | Some address =>
          let o' :=
            set_paymentResult
              {| pr_id := pay_id body;
                 pr_status := pay_status body;
                 update_time := pay_update_time body;
                 email_address := address |} (set_paid now o) in
          Order_save id o';;
          sendOrderStatusUpdateEmail (id, o') (_id req_user);;
          mret (id, o')
      end
  end.

Definition updateOrderToPaid (now : Z) (req_user : ReqUser) (id : string)
    (body : PayBody) : Store → Store * Outcome (string * Order) :=
  asyncHandler (updateOrderToPaid_fn now req_user id body).

(** PUT /api/orders/:id/deliver *)
Definition updateOrderToDelivered_fn (now : Z) (req_user : ReqUser)
    (id : string) : M (string * Order) :=
  found ← Order_findById id;
  match found with
  | None =>
      res_status 404;;
      throw "Order not found"
  | Some o =>
      let o' := set_delivered now o in
      Order_save id o';;
      sendOrderStatusUpdateEmail (id, o') (_id req_user);;
      mret (id, o')
  end.

Definition updateOrderToDelivered (now : Z) (req_user : ReqUser)
    (id : string) : Store → Store * Outcome (string * Order) :=
  asyncHandler (updateOrderToDelivered_fn now req_user id).

(** The [try] block of processOrderRefund; reading [id] of a missing
    [paymentResult] would be a TypeError. *)
Definition refund_body (stripe : Stripe) (now : Z) (id : string) (o : Order)
    : M (string * Order) :=
  paymentIntentId ←
    match paymentResult o with
    | None => throw "Cannot read properties of undefined (reading 'id')"
    | Some pr => mret (pr_id pr)
    end;
  refund ← await (processRefund stripe paymentIntentId (totalPrice o));
  let o' :=
    set_refunded now
      {| rr_id := refund_id refund; rr_status := refund_status refund |} o in
  for_of (orderItems o') credit_item;;
  Order_save id o';;
  sendRefundConfirmationEmail (id, o') (user o');;
  mret (id, o').

(** POST /api/orders/:id/refund *)
Definition processOrderRefund_fn (stripe : Stripe) (now : Z) (id : string)
    : M (string * Order) :=
  found ← Order_findById id;
  match found with
  | None =>
      res_status 404;;
      throw "Order not found"
  | Some o =>
      if negb (isPaid o) || isRefunded o then
        res_status 400;;
        throw "Order cannot be refunded"
      else
        try_catch (refund_body stripe now id o)
          (λ error,
             res_status 500;;
             throw ("Refund processing failed: " +:+ message error))
  end.

Definition processOrderRefund (stripe : Stripe) (now : Z) (id : string)
    : Store → Store * Outcome (string * Order) :=
  asyncHandler (processOrderRefund_fn stripe now id).

(** PUT /api/orders/:id/cancel *)
Definition cancelOrder_fn (now : Z) (req_user : ReqUser) (id : string)
    : M (string * Order) :=
  found ← Order_findById id;
  match found with
  | None =>
      res_status 404;;
      throw "Order not found"
  | Some o =>
      if bool_decide (orderStatus o = Shipped)
         || bool_decide (orderStatus o = Delivered)
      then
        res_status 400;;
        throw "Order cannot be canceled"
      else
        for_of (orderItems o) credit_item;;
        let o' := set_canceled now o in
        Order_save id o';;
        sendOrderStatusUpdateEmail (id, o') (_id req_user);;
        mret (id, o')
  end.

Definition cancelOrder (now : Z) (req_user : ReqUser) (id : string)
    : Store → Store * Outcome (string * Order) :=
  asyncHandler (cancelOrder_fn now req_user id).

(** ** Vocabulary of the properties *)

(** One pass of a stock loop over a line, as a function on the Product
    collection: [f] is [Z.sub] for the debit and [Z.add] for the credit. *)
Definition apply_item (f : Z → Z → Z) (m : gmap string Product)
    (item : OrderItem) : gmap string Product :=
  match m !! product item with
  | Some p => <[product item := set_countInStock (f (countInStock p) (quantity item)) p]> m
  | None => m
  end.

(** The lines of an order that name the product [pid]. *)
Definition lines_of (pid : string) (items : list OrderItem) : list OrderItem :=
  filter (λ item, product item = pid) items.

(** The quantity of [pid] that an item sequence asks for in total. *)
Definition total_quantity (pid : string) (items : list OrderItem) : Z :=
  foldr Z.add 0 (quantity <$> lines_of pid items).

(** A line that the first loop of addOrderItems lets pass. *)
Definition item_ok (m : gmap string Product) (item : OrderItem) : Prop :=
  ∃ p, m !! product item = Some p ∧ quantity item ≤ countInStock p.

Definition with_products (m : gmap string Product) (c : Ctx) : Ctx :=
  {| db := set_products (λ _, m) (db c); statusCode := statusCode c |}.

Global Instance item_ok_dec m item : Decision (item_ok m item).
Proof.
  unfold item_ok. destruct (m !! product item) as [p|].
  - destruct (decide (quantity item ≤ countInStock p)) as [Hle|Hgt].
    + left. eauto.
    + right. intros (p' & [= <-] & Hle). lia.
  - right. intros (p' & [=] & _).
Defined.

(** Where the first loop of addOrderItems stops at a line, and with what. *)
Definition check_failure (m : gmap string Product) (item : OrderItem)
    : nat * JsError :=
  match m !! product item with
  | None => (404%nat, {| message := "Product not found: " +:+ product item |})
  | Some p => (400%nat, {| message := "Insufficient stock for product: " +:+ name p |})
  end.

(** The document that addOrderItems saves once the gateway has answered
    with [secret] (the value createPaymentIntent returned). *)
Definition placed_order (items : list OrderItem) (req_user : ReqUser)
    (body : OrderBody) (secret : string) : Order :=
  set_paymentResult
    {| pr_id := String_get secret "id";
       pr_status := JsString "pending";
       update_time := JsUndefined;
       email_address := JsUndefined |}
    (new_Order (copy_item <$> items) (_id req_user) body).




(** The operations that write [countInStock], and sequences of them. *)
Inductive Operation :=
| Place (stripe : Stripe) (new_id : string) (req_user : ReqUser) (body : OrderBody)
| Cancel (now : Z) (req_user : ReqUser) (id : string)
| RefundOrder (stripe : Stripe) (now : Z) (id : string).

Definition step (s : Store) (op : Operation) : Store :=
  match op with
  | Place stripe new_id req_user body => (addOrderItems stripe new_id req_user body s).1
  | Cancel now req_user id => (cancelOrder now req_user id s).1
  | RefundOrder stripe now id => (processOrderRefund stripe now id s).1
  end.

Definition run (ops : list Operation) (s : Store) : Store := foldl step s ops.

Definition stock_nonneg (s : Store) : Prop :=
  ∀ pid p, products s !! pid = Some p → 0 ≤ countInStock p.

Definition quantities_nonneg (items : list OrderItem) : Prop :=
  Forall (λ item, 0 ≤ quantity item) items.

(** A placement whose lines name pairwise different products and ask for
    non-negative quantities; cancel and refund are always tidy. *)
Definition tidy (op : Operation) : Prop :=
  match op with
  | Place _ _ _ body =>
      ∀ items, req_orderItems body = Some items →
               NoDup (product <$> items) ∧ quantities_nonneg items
  | _ => True
  end.

(** The invariant of the lifecycle: no count is negative and no stored
    order has a negative quantity. *)
Definition stock_inv (s : Store) : Prop :=
  stock_nonneg s ∧ ∀ id o, orders s !! id = Some o → quantities_nonneg (orderItems o).

(** ** A shop to run the handlers in *)

Module Sample.

Definition phone : Product := {| name := "Phone"; countInStock := 5 |}.

Definition alice_doc : User :=
  {| firstName := "Alice"; lastName := "A"; email := "alice@example.com";
     user_role := "user" |}.

Definition alice : ReqUser := {| _id := "u1"; role := "user" |}.
Definition root : ReqUser := {| _id := "u9"; role := "admin" |}.

Definition shop : Store :=
  {| products := {[ "p1" := phone ]};
     orders := ∅;
     users := {[ "u1" := alice_doc ]} |}.

Definition line (pid : string) (q : Z) : OrderItem :=
  {| item_name := "Phone"; quantity := q; item_image := "/phone.png";
     item_price := Number_of_decimal 1999 2; product := pid |}.

Definition basket (items : list OrderItem) : OrderBody :=
  {| req_orderItems := Some items;
     req_shippingAddress := "1 Main St";
     req_paymentMethod := "card";
     req_itemsPrice := Number_of_decimal 1999 2;
     req_taxPrice := 0%float;
     req_shippingPrice := 0%float;
     req_totalPrice := Number_of_decimal 1999 2 |}.

Definition gateway_up : Stripe :=
  {| paymentIntents_create := λ _,
       inr {| intent_id := "pi_1"; client_secret := "pi_1_secret_x" |};
     refunds_create := λ _,
       inr {| refund_id := "re_1"; refund_status := "succeeded" |} |}.

Definition gateway_down : Stripe :=
  {| paymentIntents_create := λ _, inl {| message := "card_declined" |};
     refunds_create := λ _, inl {| message := "charge_already_refunded" |} |}.

(** The order of three phones, as addOrderItems stores it. *)
Definition placed : Order :=
  placed_order [line "p1" 3] alice (basket [line "p1" 3]) "pi_1_secret_x".

(** The same order after the payment callback. *)
Definition paid : Order :=
  set_paymentResult
    {| pr_id := JsString "pi_1"; pr_status := JsString "succeeded";
       update_time := JsString "2024-01-01"; email_address := JsString "alice@example.com" |}
    (set_paid 1000 placed).

(** The shop after the placement, holding the order in state [o]. *)
Definition shop_with (o : Order) : Store :=
  {| products := {[ "p1" := set_countInStock 2 phone ]};
     orders := {[ "o1" := o ]};
     users := {[ "u1" := alice_doc ]} |}.

End Sample.

(** * More of the controllers *)

(** ** The product controller *)

(** [x || y] where [x] is a string of the request body or [undefined]:
    [undefined] and the empty string are falsy. *)
Definition or_string (x : option string) (y : string) : string :=
  match x with
  | Some s => if String.eqb s "" then y else s
  | None => y
  end.

(** [x || y] where [x] is an integer of the request body or [undefined]:
    [undefined] and 0 are falsy. *)
Definition or_number (x : option Z) (y : Z) : Z :=
  match x with
  | Some n => if n =? 0 then y else n
  | None => y
  end.

(** [req.body] of PUT /api/products/:id, for the two fields that the
    Product documents of this development carry; brand, category,
    description, price, image and specifications are updated by the same
    [x || product.x] and have no part in these two. *)
Record ProductBody := {
  body_name : option string;
  body_countInStock : option Z
}.

(** [product.deleteOne()] for a document read under [id]. *)
Definition Product_deleteOne (id : string) : M unit :=
  λ c, ({| db := set_products (delete id) (db c); statusCode := statusCode c |},
        inr ()).

(** GET /api/products/:id *)
Definition getProductById_fn (id : string) : M (string * Product) :=
  found ← Product_findById id;
  match found with
  | Some p => mret (id, p)
  | None =>
      res_status 404;;
      throw "Product not found"
  end.

Definition getProductById (id : string)
    : Store → Store * Outcome (string * Product) :=
  asyncHandler (getProductById_fn id).

(** PUT /api/products/:id *)
Definition updateProduct_fn (id : string) (body : ProductBody)
    : M (string * Product) :=
  found ← Product_findById id;
  match found with
  | Some p =>
      let p' :=
        {| name := or_string (body_name body) (name p);
           countInStock := or_number (body_countInStock body) (countInStock p) |} in
      Product_save id p';;
      mret (id, p')
  | None =>
      res_status 404;;
      throw "Product not found"
  end.

Definition updateProduct (id : string) (body : ProductBody)
    : Store → Store * Outcome (string * Product) :=
  asyncHandler (updateProduct_fn id body).

(** DELETE /api/products/:id *)
Definition deleteProduct_fn (id : string) : M string :=
  found ← Product_findById id;
  match found with
  | Some p =>
      Product_deleteOne id;;
      mret "Product removed"
  | None =>
      res_status 404;;
      throw "Product not found"
  end.

Definition deleteProduct (id : string) : Store → Store * Outcome string :=
  asyncHandler (deleteProduct_fn id).

(** ** The user controller (backend/controller/userController.js) *)

Definition set_users (f : gmap string User → gmap string User)
    (s : Store) : Store :=
  {| products := products s; orders := orders s; users := f (users s) |}.

(** [user.save()] for a document read under [id]. *)
Definition User_save (id : string) (u : User) : M unit :=
  λ c, ({| db := set_users <[id := u]> (db c); statusCode := statusCode c |},
        inr ()).

(** [user.remove()] for a document read under [id]: the document is
    deleted from the collection. *)
Definition User_remove (id : string) : M unit :=
  λ c, ({| db := set_users (delete id) (db c); statusCode := statusCode c |},
        inr ()).

(** [req.body] of PUT /api/users/:id *)
Record UserBody := {
  body_firstName : option string;
  body_lastName : option string;
  body_email : option string;
  body_role : option string
}.

(** GET /api/users/:id; [select('-password')] leaves out a field that the
    User documents of this development do not carry. *)
Definition getUserById_fn (id : string) : M (string * User) :=
  found ← User_findById id;
  match found with
  | Some u => mret (id, u)
  | None =>
      res_status 404;;
      throw "User not found"
  end.

Definition getUserById (id : string) : Store → Store * Outcome (string * User) :=
  asyncHandler (getUserById_fn id).

(** GET /api/users/profile: the same lookup under [req.user._id]. *)
Definition getUserProfile (req_user : ReqUser)
    : Store → Store * Outcome (string * User) :=
  asyncHandler (getUserById_fn (_id req_user)).

(** PUT /api/users/:id *)
Definition updateUser_fn (id : string) (body : UserBody) : M (string * User) :=
  found ← User_findById id;
  match found with
  | Some u =>
      let u' :=
        {| firstName := or_string (body_firstName body) (firstName u);
           lastName := or_string (body_lastName body) (lastName u);
           email := or_string (body_email body) (email u);
           user_role := or_string (body_role body) (user_role u) |} in
      User_save id u';;
      mret (id, u')
  | None =>
      res_status 404;;
      throw "User not found"
  end.

Definition updateUser (id : string) (body : UserBody)
    : Store → Store * Outcome (string * User) :=
  asyncHandler (updateUser_fn id body).

(** DELETE /api/users/:id *)
Definition deleteUser_fn (id : string) : M string :=
  found ← User_findById id;
  match found with
  | Some u =>
      User_remove id;;
      mret "User removed"
  | None =>
      res_status 404;;
      throw "User not found"
  end.

Definition deleteUser (id : string) : Store → Store * Outcome string :=
  asyncHandler (deleteUser_fn id).

(** ** Requests in sequence *)

(** A request to one of the handlers above, with what the environment
    supplies to it (gateway, clock, new id). *)
Inductive Request :=
| AddOrderItems (stripe : Stripe) (new_id : string) (req_user : ReqUser) (body : OrderBody)
| GetOrderById (req_user : ReqUser) (id : string)
| UpdateOrderToPaid (now : Z) (req_user : ReqUser) (id : string) (body : PayBody)
| UpdateOrderToDelivered (now : Z) (req_user : ReqUser) (id : string)
| ProcessOrderRefund (stripe : Stripe) (now : Z) (id : string)
| CancelOrder (now : Z) (req_user : ReqUser) (id : string)
| GetProductById (id : string)
| UpdateProduct (id : string) (body : ProductBody)
| DeleteProduct (id : string)
| GetUserById (id : string)
| UpdateUser (id : string) (body : UserBody)
| DeleteUser (id : string).

(** The store a request leaves behind. *)
Definition handle (s : Store) (r : Request) : Store :=
  match r with
  | AddOrderItems stripe new_id u body => (addOrderItems stripe new_id u body s).1
  | GetOrderById u id => (getOrderById u id s).1
  | UpdateOrderToPaid now u id body => (updateOrderToPaid now u id body s).1
  | UpdateOrderToDelivered now u id => (updateOrderToDelivered now u id s).1
  | ProcessOrderRefund stripe now id => (processOrderRefund stripe now id s).1
  | CancelOrder now u id => (cancelOrder now u id s).1
  | GetProductById id => (getProductById id s).1
  | UpdateProduct id body => (updateProduct id body s).1
  | DeleteProduct id => (deleteProduct id s).1
  | GetUserById id => (getUserById id s).1
  | UpdateUser id body => (updateUser id body s).1
  | DeleteUser id => (deleteUser id s).1
  end.

Definition serve (rs : list Request) (s : Store) : Store := foldl handle s rs.

(** The requests of the order controller. *)
Definition order_request (r : Request) : bool :=
  match r with
  | AddOrderItems _ _ _ _ | GetOrderById _ _ | UpdateOrderToPaid _ _ _ _
  | UpdateOrderToDelivered _ _ _ | ProcessOrderRefund _ _ _ | CancelOrder _ _ _ => true
  | _ => false
  end.


(** ** The password reset of the user controller *)

(** [forgotPassword] and [resetPassword] search the User collection by
    field, so the collection is here the sequence of its documents in
    natural order, and a document carries the fields these two handlers and
    the mail read or write. *)
Module PasswordReset.

Record Account := {
  account_id : string;
  account_email : string;
  password : option string;
  resetPasswordToken : option string;
  resetPasswordExpire : option Z
}.

(** The message handed to the mail transport; [mail_resetUrl] is the link
    that the html body of the message shows. *)
Record MailOptions := {
  mail_from : string;
  mail_to : string;
  mail_subject : string;
  mail_resetUrl : string
}.

(** What the process is configured with: two environment variables, the
    SHA-256 digest in hexadecimal, and the mail transport, which delivers a
    message or fails. *)
Record Env := {
  FRONTEND_URL : string;
  EMAIL_FROM : string;
  sha256_hex : string → string;
  sendMail : MailOptions → option JsError
}.

Record World := {
  accounts : list Account;
  outbox : list MailOptions;
  res_statusCode : nat
}.

Definition R (A : Type) : Type := World → World * (JsError + A).

Global Instance R_ret : MRet R := λ A a w, (w, inr a).

Global Instance R_bind : MBind R := λ A B f m w,
  match m w with
  | (w', inr a) => f a w'
  | (w', inl e) => (w', inl e)
  end.

Definition throw_error {A} (msg : string) : R A :=
  λ w, (w, inl {| message := msg |}).

Definition try_catch_error {A} (body : R A) (handler : JsError → R A) : R A :=
  λ w, match body w with
       | (w', inl e) => handler e w'
       | r => r
       end.

Definition set_status (n : nat) : R unit :=
  λ w, ({| accounts := accounts w; outbox := outbox w; res_statusCode := n |},
        inr ()).

(** [User.findOne(filter)]: the first document, in natural order, that the
    filter matches. *)
Definition User_findOne (filter : Account → bool) : R (option Account) :=
  λ w, (w, inr (List.find filter (accounts w))).

(** The collection after [user.save()]: the document with the [_id] of
    [user] now reads as [user]. *)
Definition saved (user : Account) (l : list Account) : list Account :=
  (λ v, if String.eqb (account_id v) (account_id user) then user else v) <$> l.

Definition Account_save (user : Account) : R unit :=
  λ w, ({| accounts := saved user (accounts w); outbox := outbox w;
           res_statusCode := res_statusCode w |}, inr ()).

(** [transporter.sendMail(mailOptions)] *)
Definition transporter_sendMail (env : Env) (mailOptions : MailOptions) : R unit :=
  λ w, match sendMail env mailOptions with
       | Some e => (w, inl e)
       | None =>
           ({| accounts := accounts w; outbox := outbox w ++ [mailOptions];
               res_statusCode := res_statusCode w |}, inr ())
       end.

(** [sendPasswordResetEmail] of utils/sendEmail.js: a failure of the
    transport is caught and logged. *)
Definition sendPasswordResetEmail (env : Env) (user : Account)
    (resetToken : string) : R unit :=
  let resetUrl := FRONTEND_URL env +:+ "/reset-password/" +:+ resetToken in
  let mailOptions :=
    {| mail_from := EMAIL_FROM env;
       mail_to := account_email user;
       mail_subject := "Password Reset Request";
       mail_resetUrl := resetUrl |} in
  try_catch_error (transporter_sendMail env mailOptions) (λ error, mret ()).

(** [user.resetPasswordToken = t; user.resetPasswordExpire = e] *)
Definition set_reset (t : option string) (e : option Z) (user : Account) : Account :=
  {| account_id := account_id user;
     account_email := account_email user;
     password := password user;
     resetPasswordToken := t;
     resetPasswordExpire := e |}.

(** [user.password = p] *)
Definition set_password (p : option string) (user : Account) : Account :=
  {| account_id := account_id user;
     account_email := account_email user;
     password := p;
     resetPasswordToken := resetPasswordToken user;
     resetPasswordExpire := resetPasswordExpire user |}.

(** POST /api/users/forgot-password. [resetToken] is the value of
    [crypto.randomBytes(32).toString('hex')]. *)
Definition forgotPassword_fn (env : Env) (resetToken : string) (now : Z)
    (email : string) : R string :=
  found ← User_findOne (λ u, String.eqb (account_email u) email);
  match found with
  | None =>
      set_status 404;;
      throw_error "No user found with this email"
  | Some user =>
      let user1 :=
        set_reset (Some (sha256_hex env resetToken))
                  (Some (now + 10 * 60 * 1000)) user in
      Account_save user1;;
      try_catch_error
        (sendPasswordResetEmail env user1 resetToken;;
         set_status 200;;
         mret "Password reset email sent")
        (λ error,
           Account_save (set_reset None None user1);;
           set_status 500;;
           throw_error "Email could not be sent")
  end.

(** The filter of resetPassword:
    [{ resetPasswordToken, resetPasswordExpire: { $gt: Date.now() } }]. *)
Definition token_filter (hashed : string) (now : Z) (u : Account) : bool :=
  match resetPasswordToken u, resetPasswordExpire u with
  | Some t, Some e => String.eqb t hashed && (now <? e)
  | _, _ => false
  end.

(** PUT /api/users/reset-password/:token. [new_password] is
    [req.body.password]; it is stored as assigned (a pre-save hook of the
    model, which is not among the sources, is not modelled). *)
Definition resetPassword_fn (env : Env) (now : Z) (token : string)
    (new_password : option string) : R string :=
  let hashed := sha256_hex env token in
  found ← User_findOne (token_filter hashed now);
  match found with
  | None =>
      set_status 400;;
      throw_error "Invalid or expired reset token"
  | Some user =>
      Account_save (set_reset None None (set_password new_password user));;
      set_status 200;;
      mret "Password reset successful"
  end.

(** [asyncHandler(fn)] over the accounts: the accounts and the outbox the
    request leaves behind, and how it ended. *)
Definition handler {B} (fn : R B) (l : list Account) (sent : list MailOptions)
    : list Account * list MailOptions * Outcome B :=
  match fn {| accounts := l; outbox := sent; res_statusCode := 200 |} with
  | (w, inr body) => (accounts w, outbox w, Sent (res_statusCode w) body)
  | (w, inl e) => (accounts w, outbox w, Failed (res_statusCode w) e)
  end.

Definition forgotPassword (env : Env) (resetToken : string) (now : Z)
    (email : string) :=
  handler (forgotPassword_fn env resetToken now email).

Definition resetPassword (env : Env) (now : Z) (token : string)
    (new_password : option string) :=
  handler (resetPassword_fn env now token new_password).

(** The mail that forgotPassword hands to the transport. *)
Definition reset_mail (env : Env) (user : Account) (resetToken : string)
    : MailOptions :=
  {| mail_from := EMAIL_FROM env;
     mail_to := account_email user;
     mail_subject := "Password Reset Request";
     mail_resetUrl := FRONTEND_URL env +:+ "/reset-password/" +:+ resetToken |}.

(** An account that holds the digest [hashed] as its reset token. *)
Definition holds (hashed : string) (u : Account) : Prop :=
  resetPasswordToken u = Some hashed.

(** Three accounts and two environments, one with a failing transport. *)
Definition ann : Account :=
  {| account_id := "u1"; account_email := "ann@example.com";
     password := Some "old"; resetPasswordToken := None;
     resetPasswordExpire := None |}.

Definition ben : Account :=
  {| account_id := "u2"; account_email := "ben@example.com";
     password := Some "ben-old"; resetPasswordToken := None;
     resetPasswordExpire := None |}.

Definition env_up : Env :=
  {| FRONTEND_URL := "https://shop.example"; EMAIL_FROM := "noreply@shop.example";
     sha256_hex := λ s, "digest-of-" +:+ s;
     sendMail := λ _, None |}.

Definition env_down : Env :=
  {| FRONTEND_URL := "https://shop.example"; EMAIL_FROM := "noreply@shop.example";
     sha256_hex := λ s, "digest-of-" +:+ s;
     sendMail := λ _, Some {| message := "ECONNREFUSED" |} |}.

End PasswordReset.

(** * Properties *)

(** ** What the loops do to the products *)

Lemma with_products_id c : with_products (products (db c)) c = c.
Proof. by destruct c as [[] ?]. Qed.

Lemma bind_run {A B} (m : M A) (f : A → M B) c :
  (m ≫= f) c = match m c with
               | (c', inr a) => f a c'
               | (c', inl e) => (c', inl e)
               end.
Proof. reflexivity. Qed.

Lemma for_of_cons {A} (x : A) l body c :
  for_of (x :: l) body c = match body x c with
                           | (c', inr _) => for_of l body c'
                           | (c', inl e) => (c', inl e)
                           end.
Proof. reflexivity. Qed.

Lemma credit_item_run item c :
  credit_item item c
  = (with_products (apply_item Z.add (products (db c)) item) c, inr ()).
Proof.
  unfold credit_item, apply_item. rewrite bind_run. cbn.
  destruct (products (db c) !! product item) as [p|] eqn:E.
  - by destruct c as [[] ?].
  - cbn. by rewrite with_products_id.
Qed.

Lemma debit_item_run item c p :
  products (db c) !! product item = Some p →
  debit_item item c
  = (with_products (apply_item Z.sub (products (db c)) item) c, inr ()).
Proof.
  intros E. unfold debit_item, apply_item. rewrite bind_run. cbn.
  rewrite E. by destruct c as [[] ?].
Qed.

Lemma apply_item_dom f m item pid :
  is_Some (apply_item f m item !! pid) ↔ is_Some (m !! pid).
Proof.
  unfold apply_item. destruct (m !! product item) as [p|] eqn:E; [|done].
  destruct (decide (product item = pid)) as [<-|Hne].
  - rewrite lookup_insert_eq, E. split; eauto.
  - by rewrite lookup_insert_ne.
Qed.

Lemma for_of_credit items c :
  for_of items credit_item c
  = (with_products (foldl (apply_item Z.add) (products (db c)) items) c, inr ()).
Proof.
  revert c. induction items as [|item items IH]; intros c.
  - cbn. by rewrite with_products_id.
  - rewrite for_of_cons, credit_item_run, IH. by destruct c as [[] ?].
Qed.

Lemma for_of_debit items c :
  Forall (λ item, is_Some (products (db c) !! product item)) items →
  for_of items debit_item c
  = (with_products (foldl (apply_item Z.sub) (products (db c)) items) c, inr ()).
Proof.
  revert c. induction items as [|item items IH]; intros c Hall.
  - cbn. by rewrite with_products_id.
  - inversion Hall as [|? ? [p Hp] Hrest]; subst.
    rewrite for_of_cons, (debit_item_run _ _ p Hp), IH.
    + by destruct c as [[] ?].
    + eapply Forall_impl; [exact Hrest|]. intros it Hit. cbn.
      by apply apply_item_dom.
Qed.

(** Lookup after a stock loop: the count of a product has absorbed, line by
    line, the quantities of the lines that name it; nothing else changed. *)
Lemma lookup_foldl_apply_item f items m pid :
  foldl (apply_item f) m items !! pid
  = (λ p, set_countInStock
            (foldl f (countInStock p) (quantity <$> lines_of pid items)) p)
    <$> m !! pid.
Proof.
  revert m. induction items as [|item items IH]; intros m.
  - cbn. destruct (m !! pid) as [[]|]; reflexivity.
  - cbn [foldl]. rewrite IH. unfold lines_of. rewrite filter_cons.
    unfold apply_item at 1.
    destruct (m !! product item) as [p|] eqn:E.
    + destruct (decide (product item = pid)) as [<-|Hne].
      * rewrite lookup_insert_eq, E. reflexivity.
      * by rewrite lookup_insert_ne.
    + destruct (decide (product item = pid)) as [<-|Hne]; [|done].
      by rewrite E.
Qed.

Lemma foldl_add_total c qs : foldl Z.add c qs = c + foldr Z.add 0 qs.
Proof.
  revert c. induction qs as [|q qs IH]; intros c; cbn; [lia|].
  rewrite IH. lia.
Qed.

Lemma foldl_sub_total c qs : foldl Z.sub c qs = c - foldr Z.add 0 qs.
Proof.
  revert c. induction qs as [|q qs IH]; intros c; cbn; [lia|].
  rewrite IH. lia.
Qed.

Lemma lookup_credit_all items m pid :
  foldl (apply_item Z.add) m items !! pid
  = (λ p, set_countInStock (countInStock p + total_quantity pid items) p)
    <$> m !! pid.
Proof.
  rewrite lookup_foldl_apply_item. unfold total_quantity.
  destruct (m !! pid); cbn; [|done]. by rewrite foldl_add_total.
Qed.

Lemma lookup_debit_all items m pid :
  foldl (apply_item Z.sub) m items !! pid
  = (λ p, set_countInStock (countInStock p - total_quantity pid items) p)
    <$> m !! pid.
Proof.
  rewrite lookup_foldl_apply_item. unfold total_quantity.
  destruct (m !! pid); cbn; [|done]. by rewrite foldl_sub_total.
Qed.

(** ** The validation loop *)

Lemma check_item_ok item c :
  item_ok (products (db c)) item → check_item item c = (c, inr ()).
Proof.
  intros (p & Hp & Hle). unfold check_item. rewrite bind_run. cbn.
  rewrite Hp. destruct (countInStock p <? quantity item) eqn:E; [lia|done].
Qed.

Lemma check_item_bad item c :
  ¬ item_ok (products (db c)) item →
  check_item item c
  = ({| db := db c; statusCode := (check_failure (products (db c)) item).1 |},
     inl (check_failure (products (db c)) item).2).
Proof.
  intros Hbad. unfold check_item, check_failure. rewrite bind_run. cbn.
  destruct (products (db c) !! product item) as [p|] eqn:Hp; [|done].
  destruct (countInStock p <? quantity item) eqn:E; [done|].
  destruct Hbad. exists p. split; [done|lia].
Qed.

Lemma for_of_check_ok items c :
  Forall (item_ok (products (db c))) items →
  for_of items check_item c = (c, inr ()).
Proof.
  induction 1 as [|item items Hok _ IH]; [done|].
  by rewrite for_of_cons, check_item_ok.
Qed.

Lemma for_of_check_bad l1 bad l2 c :
  Forall (item_ok (products (db c))) l1 →
  ¬ item_ok (products (db c)) bad →
  for_of (l1 ++ bad :: l2) check_item c
  = ({| db := db c; statusCode := (check_failure (products (db c)) bad).1 |},
     inl (check_failure (products (db c)) bad).2).
Proof.
  induction 1 as [|item items Hok _ IH]; intros Hbad.
  - cbn [app]. by rewrite for_of_cons, check_item_bad.
  - cbn [app]. rewrite for_of_cons, check_item_ok by done. by apply IH.
Qed.

(** A sequence with a line that does not pass splits at the first one. *)
Lemma first_bad_line m items :
  ¬ Forall (item_ok m) items →
  ∃ l1 bad l2, items = l1 ++ bad :: l2 ∧ Forall (item_ok m) l1 ∧ ¬ item_ok m bad.
Proof.
  induction items as [|item items IH]; intros Hnot.
  - destruct Hnot. constructor.
  - destruct (decide (item_ok m item)) as [Hok|Hbad].
    + destruct IH as (l1 & bad & l2 & -> & Hl1 & Hb).
      * intros Hall. apply Hnot. by constructor.
      * exists (item :: l1), bad, l2. split; [done|]. split; [by constructor|done].
    + exists [], item, items. split; [done|]. split; [constructor|done].
Qed.

(** ** addOrderItems, case by case *)

Lemma addOrderItems_no_items stripe new_id u body s :
  req_orderItems body = None ∨ req_orderItems body = Some [] →
  addOrderItems stripe new_id u body s
  = (s, Failed 400 {| message := "No order items" |}).
Proof.
  unfold addOrderItems, asyncHandler, addOrderItems_fn.
  by intros [-> | ->].
Qed.

Lemma addOrderItems_rejected stripe new_id u body s l1 bad l2 :
  req_orderItems body = Some (l1 ++ bad :: l2) →
  Forall (item_ok (products s)) l1 →
  ¬ item_ok (products s) bad →
  addOrderItems stripe new_id u body s
  = (s, Failed (check_failure (products s) bad).1
               (check_failure (products s) bad).2).
Proof.
  intros Hitems Hl1 Hbad.
  unfold addOrderItems, asyncHandler, addOrderItems_fn. rewrite Hitems.
  destruct (l1 ++ bad :: l2) as [|x l] eqn:El; [by destruct l1|].
  rewrite bind_run, <- El, for_of_check_bad by done. done.
Qed.

Lemma addOrderItems_accepted stripe new_id u body s items :
  req_orderItems body = Some items →
  items ≠ [] →
  Forall (item_ok (products s)) items →
  addOrderItems stripe new_id u body s
  = let s1 := set_products (λ m, foldl (apply_item Z.sub) m items) s in
    match createPaymentIntent stripe (req_totalPrice body) "usd" with
    | inl e => (s1, Failed 200 e)
    | inr secret =>
        match orders s !! new_id with
        | Some _ => (s1, Failed 200 {| message := "E11000 duplicate key error" |})
        | None =>
            (set_orders <[new_id := placed_order items u body secret]> s1,
             Sent 201 {| order := (new_id, placed_order items u body secret);
                         clientSecret := String_get secret "client_secret" |})
        end
    end.
Proof.
  intros Hitems Hne Hall.
  unfold addOrderItems, asyncHandler, addOrderItems_fn. rewrite Hitems.
  destruct items as [|x l] eqn:El; [done|]. rewrite <- El in *. clear El x l Hne.
  rewrite bind_run, for_of_check_ok by done.
  rewrite bind_run, for_of_debit.
  2:{ eapply Forall_impl; [exact Hall|]. intros it (p & Hp & _). cbn. eauto. }
  rewrite bind_run. unfold await at 1.
  destruct (createPaymentIntent stripe (req_totalPrice body) "usd") as [e|secret];
    [by destruct s|].
  rewrite bind_run. unfold Order_insert at 1. cbn.
  destruct (orders s !! new_id) eqn:Ho; cbn; [by destruct s|].
  by destruct s.
Qed.

(** ** processOrderRefund and cancelOrder, case by case *)

Lemma processOrderRefund_not_eligible stripe now id s o :
  orders s !! id = Some o →
  negb (isPaid o) || isRefunded o = true →
  processOrderRefund stripe now id s
  = (s, Failed 400 {| message := "Order cannot be refunded" |}).
Proof.
  intros Ho Hg. unfold processOrderRefund, asyncHandler, processOrderRefund_fn.
  rewrite bind_run. cbn. by rewrite Ho, Hg.
Qed.

Lemma processOrderRefund_eligible stripe now id s o pr :
  orders s !! id = Some o →
  isPaid o = true →
  isRefunded o = false →
  paymentResult o = Some pr →
  processOrderRefund stripe now id s
  = match refunds_create stripe (refundParams (pr_id pr) (totalPrice o)) with
    | inl e =>
        (s, Failed 500 {| message := "Refund processing failed: " +:+ message e |})
    | inr refund =>
        let o' := set_refunded now {| rr_id := refund_id refund;
                                      rr_status := refund_status refund |} o in
        (set_orders <[id := o']>
           (set_products (λ m, foldl (apply_item Z.add) m (orderItems o)) s),
         Sent 200 (id, o'))
    end.
Proof.
  intros Ho Hpaid Hnot Hpr.
  unfold processOrderRefund, asyncHandler, processOrderRefund_fn.
  rewrite bind_run. cbn. rewrite Ho, Hpaid, Hnot. cbn.
  unfold try_catch, refund_body. rewrite Hpr, bind_run. cbn.
  rewrite bind_run. unfold await, processRefund.
  destruct (refunds_create stripe (refundParams (pr_id pr) (totalPrice o)))
    as [e|refund]; [done|].
  rewrite bind_run, for_of_credit. cbn. by destruct s.
Qed.

Lemma cancelOrder_terminal now u id s o :
  orders s !! id = Some o →
  orderStatus o = Shipped ∨ orderStatus o = Delivered →
  cancelOrder now u id s
  = (s, Failed 400 {| message := "Order cannot be canceled" |}).
Proof.
  intros Ho Hst. unfold cancelOrder, asyncHandler, cancelOrder_fn.
  rewrite bind_run. cbn. rewrite Ho. by destruct Hst as [-> | ->].
Qed.

Lemma cancelOrder_cancelable now u id s o :
  orders s !! id = Some o →
  orderStatus o ≠ Shipped →
  orderStatus o ≠ Delivered →
  cancelOrder now u id s
  = (set_orders <[id := set_canceled now o]>
       (set_products (λ m, foldl (apply_item Z.add) m (orderItems o)) s),
     Sent 200 (id, set_canceled now o)).
Proof.
  intros Ho H1 H2. unfold cancelOrder, asyncHandler, cancelOrder_fn.
  rewrite bind_run. cbn. rewrite Ho.
  rewrite !bool_decide_eq_false_2 by done. cbn.
  rewrite bind_run, for_of_credit. cbn. by destruct s.
Qed.


(** What a successful placement went through. *)
Lemma addOrderItems_Sent_inv stripe new_id u body s s1 st pl :
  addOrderItems stripe new_id u body s = (s1, Sent st pl) →
  ∃ items secret,
    req_orderItems body = Some items ∧ items ≠ [] ∧
    Forall (item_ok (products s)) items ∧
    createPaymentIntent stripe (req_totalPrice body) "usd" = inr secret ∧
    orders s !! new_id = None ∧
    s1 = set_orders <[new_id := placed_order items u body secret]>
           (set_products (λ m, foldl (apply_item Z.sub) m items) s) ∧
    st = 201%nat ∧
    pl = {| order := (new_id, placed_order items u body secret);
            clientSecret := String_get secret "client_secret" |}.
Proof.
  intros Hrun.
  destruct (req_orderItems body) as [items|] eqn:Hitems.
  2:{ rewrite addOrderItems_no_items in Hrun by auto. discriminate. }
  destruct (decide (items = [])) as [->|Hne].
  { rewrite addOrderItems_no_items in Hrun by auto. discriminate. }
  destruct (decide (Forall (item_ok (products s)) items)) as [Hall|Hnot].
  - rewrite (addOrderItems_accepted _ _ _ _ _ items) in Hrun by done.
    cbn zeta in Hrun.
    destruct (createPaymentIntent stripe (req_totalPrice body) "usd")
      as [e|secret]; [discriminate|].
    destruct (orders s !! new_id); [discriminate|].
    injection Hrun as <- <- <-. by exists items, secret.
  - destruct (first_bad_line _ _ Hnot) as (l1 & bad & l2 & -> & Hl1 & Hbad).
    rewrite (addOrderItems_rejected _ _ _ _ _ l1 bad l2) in Hrun by done.
    discriminate.
Qed.

Lemma createPaymentIntent_inr stripe amount currency secret :
  createPaymentIntent stripe amount currency = inr secret →
  ∃ intent,
    paymentIntents_create stripe (paymentIntentParams amount currency) = inr intent
    ∧ secret = client_secret intent.
Proof.
  unfold createPaymentIntent.
  destruct (paymentIntents_create stripe _) as [e|intent]; [done|].
  intros [= <-]. by exists intent.
Qed.


(** * The claims *)

(** ** Order placement *)

(** C2. When some requested line asks for more than its product has in
    stock, or names a product that does not exist, the placement fails as a
    whole and the store is returned as it was: no count has been debited.
    The failure is that of the first such line in request order: status 404
    "Product not found: <id>" (NotFoundError) when its product is missing,
    status 400 "Insufficient stock for product: <name>"
    (InsufficientStockError) otherwise. *)
Theorem placement_validates_before_commit stripe new_id u body s items :
  req_orderItems body = Some items →
  Exists (λ item, ¬ item_ok (products s) item) items →
  ∃ l1 bad l2,
    items = l1 ++ bad :: l2 ∧ Forall (item_ok (products s)) l1 ∧
    match products s !! product bad with
    | None =>
        addOrderItems stripe new_id u body s
        = (s, Failed 404 {| message := "Product not found: " +:+ product bad |})
    | Some p =>
        countInStock p < quantity bad ∧
        addOrderItems stripe new_id u body s
        = (s, Failed 400 {| message := "Insufficient stock for product: " +:+ name p |})
    end.
Proof.
  intros Hitems Hex.
  destruct (first_bad_line (products s) items) as (l1 & bad & l2 & -> & Hl1 & Hbad).
  { intros Hall. apply Exists_exists in Hex as (x & Hx & Hnx).
    rewrite Forall_forall in Hall. by apply Hnx, Hall. }
  exists l1, bad, l2. split; [done|]. split; [done|].
  pose proof (addOrderItems_rejected stripe new_id u body s l1 bad l2
                Hitems Hl1 Hbad) as Hrun.
  unfold check_failure in Hrun.
  destruct (products s !! product bad) as [p|] eqn:Hp; [|exact Hrun].
  split; [|exact Hrun].
  destruct (decide (quantity bad ≤ countInStock p)) as [Hle|Hgt]; [|lia].
  destruct Hbad. by exists p.
Qed.

Lemma placement_validates_before_commit_witness :
  ∃ l1 bad l2,
    [Sample.line "p1" 3; Sample.line "p1" 9; Sample.line "p7" 1] = l1 ++ bad :: l2 ∧
    Forall (item_ok (products Sample.shop)) l1 ∧
    match products Sample.shop !! product bad with
    | None =>
        addOrderItems Sample.gateway_up "o1" Sample.alice
          (Sample.basket [Sample.line "p1" 3; Sample.line "p1" 9; Sample.line "p7" 1])
          Sample.shop
        = (Sample.shop,
           Failed 404 {| message := "Product not found: " +:+ product bad |})
    | Some p =>
        countInStock p < quantity bad ∧
        addOrderItems Sample.gateway_up "o1" Sample.alice
          (Sample.basket [Sample.line "p1" 3; Sample.line "p1" 9; Sample.line "p7" 1])
          Sample.shop
        = (Sample.shop,
           Failed 400 {| message := "Insufficient stock for product: " +:+ name p |})
    end.
Proof.
  apply (placement_validates_before_commit Sample.gateway_up "o1" Sample.alice
           (Sample.basket [Sample.line "p1" 3; Sample.line "p1" 9; Sample.line "p7" 1])
           Sample.shop
           [Sample.line "p1" 3; Sample.line "p1" 9; Sample.line "p7" 1]).
  - reflexivity.
  - apply Exists_cons_tl, Exists_cons_hd.
    apply (bool_decide_unpack _). vm_compute. exact I.
Defined.



(** C6. What a successful placement stores and answers: status 201, the
    order under its new id with orderStatus Placed, isPaid false and
    paymentResult.status "pending". The gateway did answer with an
    authorization [intent], but createPaymentIntent hands back only its
    client secret, a string, of which the controller then reads [id] and
    [client_secret]: the stored paymentResult.id and the clientSecret of the
    response are both undefined, not [intent_id intent] and
    [client_secret intent]. *)
Theorem placement_drops_authorization stripe new_id u body s s1 st pl :
  addOrderItems stripe new_id u body s = (s1, Sent st pl) →
  ∃ intent o,
    paymentIntents_create stripe (paymentIntentParams (req_totalPrice body) "usd")
    = inr intent ∧
    st = 201%nat ∧
    order pl = (new_id, o) ∧
    orders s1 !! new_id = Some o ∧
    orderStatus o = Placed ∧
    isPaid o = false ∧
    paymentResult o = Some {| pr_id := JsUndefined;
                              pr_status := JsString "pending";
                              update_time := JsUndefined;
                              email_address := JsUndefined |} ∧
    clientSecret pl = JsUndefined.
Proof.
  intros Hrun.
  apply addOrderItems_Sent_inv in Hrun
    as (items & secret & Hitems & Hne & Hall & Hgw & Hfresh & -> & -> & ->).
  apply createPaymentIntent_inr in Hgw as (intent & Hgw & ->).
  exists intent, (placed_order items u body (client_secret intent)).
  split; [done|]. split; [done|]. split; [done|].
  split; [cbn; by rewrite lookup_insert_eq|].
  done.
Qed.

Lemma placement_drops_authorization_witness :
  ∃ intent o,
    paymentIntents_create Sample.gateway_up
      (paymentIntentParams (req_totalPrice (Sample.basket [Sample.line "p1" 3])) "usd")
    = inr intent ∧
    201%nat = 201%nat ∧
    order {| order := ("o1", Sample.placed); clientSecret := JsUndefined |} = ("o1", o) ∧
    orders (Sample.shop_with Sample.placed) !! "o1" = Some o ∧
    orderStatus o = Placed ∧
    isPaid o = false ∧
    paymentResult o = Some {| pr_id := JsUndefined;
                              pr_status := JsString "pending";
                              update_time := JsUndefined;
                              email_address := JsUndefined |} ∧
    clientSecret {| order := ("o1", Sample.placed); clientSecret := JsUndefined |}
    = JsUndefined.
Proof.
  apply (placement_drops_authorization Sample.gateway_up "o1" Sample.alice
           (Sample.basket [Sample.line "p1" 3]) Sample.shop
           (Sample.shop_with Sample.placed) 201%nat
           {| order := ("o1", Sample.placed); clientSecret := JsUndefined |}).
  vm_compute. reflexivity.
Defined.

(** ** Refund *)

(** C3. An order that is not paid, or that is already refunded, cannot be
    refunded: the call fails with status 400 "Order cannot be refunded"
    (InvalidTransitionError) and the store is returned as it was. So after a
    refund that went through, any second refund of the same order fails in
    this way, whatever the gateway would answer, and the order keeps the
    refundResult that the first call took from the gateway's answer. *)
Theorem refund_guard_and_second_refund stripe now id s o :
  orders s !! id = Some o →
  (isPaid o = false ∨ isRefunded o = true →
   processOrderRefund stripe now id s
   = (s, Failed 400 {| message := "Order cannot be refunded" |}))
  ∧
  (∀ s1 st r,
     processOrderRefund stripe now id s = (s1, Sent st r) →
     ∃ pr refund o1,
       paymentResult o = Some pr ∧
       refunds_create stripe (refundParams (pr_id pr) (totalPrice o)) = inr refund ∧
       orders s1 !! id = Some o1 ∧
       refundResult o1 = Some {| rr_id := refund_id refund;
                                 rr_status := refund_status refund |} ∧
       ∀ stripe2 now2,
         processOrderRefund stripe2 now2 id s1
         = (s1, Failed 400 {| message := "Order cannot be refunded" |})).
Proof.
  intros Ho. split.
  - intros Hg. apply (processOrderRefund_not_eligible _ _ _ _ o Ho).
    destruct Hg as [-> | ->]; [done|]. by destruct (isPaid o).
  - intros s1 st r Hrun.
    destruct (isPaid o) eqn:Hpaid.
    2:{ rewrite (processOrderRefund_not_eligible _ _ _ _ o Ho) in Hrun
          by (by rewrite Hpaid).
        discriminate. }
    destruct (isRefunded o) eqn:Hnot.
    { rewrite (processOrderRefund_not_eligible _ _ _ _ o Ho) in Hrun
        by (by rewrite Hpaid, Hnot).
      discriminate. }
    destruct (paymentResult o) as [pr|] eqn:Hpr.
    + rewrite (processOrderRefund_eligible _ _ _ _ o pr) in Hrun by done.
      destruct (refunds_create stripe _) as [e|refund] eqn:Hgw; [discriminate|].
      cbn zeta in Hrun. injection Hrun as <- <- <-.
      eexists pr, refund, _. split; [done|]. split; [done|].
      split; [cbn; by rewrite lookup_insert_eq|]. split; [done|].
      intros stripe2 now2.
      eapply processOrderRefund_not_eligible.
      * cbn. by rewrite lookup_insert_eq.
      * cbn. by rewrite Hpaid.
    + exfalso. revert Hrun.
      unfold processOrderRefund, asyncHandler, processOrderRefund_fn.
      rewrite bind_run. cbn. rewrite Ho, Hpaid, Hnot. cbn.
      unfold try_catch, refund_body. rewrite Hpr, bind_run. cbn. discriminate.
Qed.

Lemma refund_guard_and_second_refund_witness :
  processOrderRefund Sample.gateway_up 2000 "o1" (Sample.shop_with Sample.placed)
  = (Sample.shop_with Sample.placed,
     Failed 400 {| message := "Order cannot be refunded" |})
  ∧
  ∃ s1 r,
    processOrderRefund Sample.gateway_up 2000 "o1" (Sample.shop_with Sample.paid)
    = (s1, Sent 200 r) ∧
    processOrderRefund Sample.gateway_up 3000 "o1" s1
    = (s1, Failed 400 {| message := "Order cannot be refunded" |}).
Proof.
  split.
  - apply (refund_guard_and_second_refund Sample.gateway_up 2000 "o1"
             (Sample.shop_with Sample.placed) Sample.placed).
    + reflexivity.
    + left. reflexivity.
  - eexists _, _.
    assert (Hfirst :
      processOrderRefund Sample.gateway_up 2000 "o1" (Sample.shop_with Sample.paid)
      = ((processOrderRefund Sample.gateway_up 2000 "o1"
            (Sample.shop_with Sample.paid)).1,
         Sent 200 ("o1", set_refunded 2000
                           {| rr_id := "re_1"; rr_status := "succeeded" |}
                           Sample.paid))).
    { vm_compute. reflexivity. }
    split; [exact Hfirst|].
    destruct (refund_guard_and_second_refund Sample.gateway_up 2000 "o1"
                (Sample.shop_with Sample.paid) Sample.paid eq_refl)
      as [_ Hsecond].
    destruct (Hsecond _ _ _ Hfirst) as (pr & refund & o1 & _ & _ & _ & _ & Hfail).
    apply Hfail.
Defined.

(** C4. When an order is eligible for a refund (paid, not refunded) and the
    gateway refuses the refund request, the call fails with status 500 and
    the message "Refund processing failed: " followed by the gateway's
    message (PaymentError), and the store is returned as it was: neither the
    order nor any product count has changed. *)
Theorem refund_gateway_failure_changes_nothing stripe now id s o pr e :
  orders s !! id = Some o →
  isPaid o = true →
  isRefunded o = false →
  paymentResult o = Some pr →
  refunds_create stripe (refundParams (pr_id pr) (totalPrice o)) = inl e →
  processOrderRefund stripe now id s
  = (s, Failed 500 {| message := "Refund processing failed: " +:+ message e |}).
Proof.
  intros Ho Hpaid Hnot Hpr Hgw.
  rewrite (processOrderRefund_eligible _ _ _ _ o pr) by done.
  by rewrite Hgw.
Qed.

Lemma refund_gateway_failure_changes_nothing_witness :
  processOrderRefund Sample.gateway_down 2000 "o1" (Sample.shop_with Sample.paid)
  = (Sample.shop_with Sample.paid,
     Failed 500 {| message := "Refund processing failed: "
                              +:+ message {| message := "charge_already_refunded" |} |}).
Proof.
  apply (refund_gateway_failure_changes_nothing Sample.gateway_down 2000 "o1"
           (Sample.shop_with Sample.paid) Sample.paid
           {| pr_id := JsString "pi_1"; pr_status := JsString "succeeded";
              update_time := JsString "2024-01-01";
              email_address := JsString "alice@example.com" |}
           {| message := "charge_already_refunded" |});
    reflexivity.
Defined.

(** ** Cancel *)

(** The sample orders are what the handlers produce: the payment callback
    turns the placed order into the paid one, and the delivery marks it. *)
Example sample_paid_by_callback :
  updateOrderToPaid 1000 Sample.alice "o1"
    {| pay_id := JsString "pi_1"; pay_status := JsString "succeeded";
       pay_update_time := JsString "2024-01-01";
       payer := Some (JsString "alice@example.com") |}
    (Sample.shop_with Sample.placed)
  = (Sample.shop_with Sample.paid, Sent 200 ("o1", Sample.paid))
  ∧ updateOrderToDelivered 4000 Sample.root "o1" (Sample.shop_with Sample.paid)
    = (Sample.shop_with (set_delivered 4000 Sample.paid),
       Sent 200 ("o1", set_delivered 4000 Sample.paid)).
Proof. split; vm_compute; reflexivity. Qed.





(** ** Order lookup *)



(** ** Stock never below zero? *)

Lemma cancelOrder_store now u id s :
  (cancelOrder now u id s).1 = s
  ∨ ∃ o, orders s !! id = Some o ∧
         (cancelOrder now u id s).1
         = set_orders <[id := set_canceled now o]>
             (set_products (λ m, foldl (apply_item Z.add) m (orderItems o)) s).
Proof.
  destruct (orders s !! id) as [o|] eqn:Ho.
  - destruct (decide (orderStatus o = Shipped ∨ orderStatus o = Delivered))
      as [Hst|Hst].
    + left. by rewrite (cancelOrder_terminal _ _ _ _ o).
    + right. exists o. split; [done|].
      rewrite (cancelOrder_cancelable _ _ _ _ o); [done|done|tauto|tauto].
  - left. unfold cancelOrder, asyncHandler, cancelOrder_fn.
    rewrite bind_run. cbn. by rewrite Ho.
Qed.

Lemma processOrderRefund_store stripe now id s :
  (processOrderRefund stripe now id s).1 = s
  ∨ ∃ o rr, orders s !! id = Some o ∧
            (processOrderRefund stripe now id s).1
            = set_orders <[id := set_refunded now rr o]>
                (set_products (λ m, foldl (apply_item Z.add) m (orderItems o)) s).
Proof.
  destruct (orders s !! id) as [o|] eqn:Ho.
  2:{ left. unfold processOrderRefund, asyncHandler, processOrderRefund_fn.
      rewrite bind_run. cbn. by rewrite Ho. }
  destruct (negb (isPaid o) || isRefunded o) eqn:Hg.
  { left. by rewrite (processOrderRefund_not_eligible _ _ _ _ o). }
  apply orb_false_elim in Hg as [Hpaid Hnot]. apply negb_false_iff in Hpaid.
  destruct (paymentResult o) as [pr|] eqn:Hpr.
  - rewrite (processOrderRefund_eligible _ _ _ _ o pr) by done.
    destruct (refunds_create stripe _) as [e|refund]; [by left|].
    right. by eexists o, _.
  - left. unfold processOrderRefund, asyncHandler, processOrderRefund_fn.
    rewrite bind_run. cbn. rewrite Ho, Hpaid, Hnot. cbn.
    unfold try_catch, refund_body. by rewrite Hpr, bind_run.
Qed.

Lemma total_quantity_nonneg pid items :
  quantities_nonneg items → 0 ≤ total_quantity pid items.
Proof.
  unfold total_quantity, lines_of, quantities_nonneg.
  induction 1 as [|item items Hq _ IH]; [done|].
  rewrite filter_cons. destruct (decide (product item = pid)); [|done].
  cbn. lia.
Qed.

(** Lines that name pairwise different products: at most one names [pid]. *)
Lemma lines_of_NoDup pid items :
  NoDup (product <$> items) →
  lines_of pid items = []
  ∨ ∃ item, lines_of pid items = [item] ∧ item ∈ items ∧ product item = pid.
Proof.
  unfold lines_of. induction items as [|item items IH]; [by left|].
  cbn [fmap list_fmap]. intros [Hnotin Hnd]%NoDup_cons.
  rewrite filter_cons. destruct (decide (product item = pid)) as [Heq|Hne].
  - right. exists item. split; [|split; [left|done]].
    f_equal. destruct (IH Hnd) as [Hnil | (item' & _ & Hin & Heq')]; [done|].
    destruct Hnotin. rewrite Heq, <- Heq'. by apply list_elem_of_fmap_2.
  - destruct (IH Hnd) as [Hnil | (item' & Hone & Hin & Heq')]; [by left|].
    right. exists item'. split; [done|]. split; [by right|done].
Qed.

Lemma credit_preserves_stock_inv s id o o' :
  stock_inv s →
  orders s !! id = Some o →
  orderItems o' = orderItems o →
  stock_inv (set_orders <[id := o']>
               (set_products (λ m, foldl (apply_item Z.add) m (orderItems o)) s)).
Proof.
  intros [Hstock Hord] Ho Hitems. split.
  - intros pid p. cbn. rewrite lookup_credit_all.
    destruct (products s !! pid) as [p0|] eqn:Hp0; [|done].
    intros [= <-]. cbn.
    pose proof (Hstock _ _ Hp0).
    pose proof (total_quantity_nonneg pid _ (Hord _ _ Ho)). lia.
  - intros id' o''. cbn. rewrite lookup_insert.
    case_decide as Hid; [|by apply Hord].
    intros [= <-]. rewrite Hitems. by apply (Hord id).
Qed.

Lemma quantities_nonneg_copy items :
  quantities_nonneg items → quantities_nonneg (copy_item <$> items).
Proof.
  unfold quantities_nonneg. intros H. apply Forall_fmap.
  eapply Forall_impl; [exact H|]. done.
Qed.

Lemma debit_preserves_stock_nonneg s items :
  stock_nonneg s →
  NoDup (product <$> items) →
  quantities_nonneg items →
  Forall (item_ok (products s)) items →
  stock_nonneg (set_products (λ m, foldl (apply_item Z.sub) m items) s).
Proof.
  intros Hstock Hnd Hq Hall pid p. cbn. rewrite lookup_debit_all.
  destruct (products s !! pid) as [p0|] eqn:Hp0; [|done].
  intros [= <-]. cbn. pose proof (Hstock _ _ Hp0) as H0.
  unfold total_quantity.
  destruct (lines_of_NoDup pid items Hnd) as [-> | (item & -> & Hin & Heq)].
  - cbn. lia.
  - cbn. rewrite Forall_forall in Hall.
    destruct (Hall _ Hin) as (p1 & Hp1 & Hle).
    rewrite Heq, Hp0 in Hp1. injection Hp1 as <-. lia.
Qed.

(** What does hold: as long as no placement names a product on two lines
    (and no quantity is negative), every sequence of placements, cancels
    and refunds keeps every count at or above zero. *)
Lemma step_preserves_stock_inv s op :
  stock_inv s → tidy op → stock_inv (step s op).
Proof.
  intros Hinv Htidy. destruct op as [stripe new_id u body | now u id | stripe now id].
  - cbn in *.
    destruct (req_orderItems body) as [items|] eqn:Hitems.
    2:{ by rewrite addOrderItems_no_items by auto. }
    destruct (decide (items = [])) as [->|Hne].
    { by rewrite addOrderItems_no_items by auto. }
    destruct (decide (Forall (item_ok (products s)) items)) as [Hall|Hnot].
    + destruct (Htidy _ eq_refl) as [Hnd Hq].
      destruct Hinv as [Hstock Hord].
      pose proof (debit_preserves_stock_nonneg s items Hstock Hnd Hq Hall) as Hdeb.
      rewrite (addOrderItems_accepted _ _ _ _ _ items) by done. cbn zeta.
      destruct (createPaymentIntent stripe (req_totalPrice body) "usd")
        as [e|secret]; [by split|].
      destruct (orders s !! new_id) eqn:Hfresh; [by split|].
      split; [exact Hdeb|].
      intros id' o'. cbn. rewrite lookup_insert.
      case_decide as Hid; [|by apply Hord].
      intros [= <-]. cbn. by apply quantities_nonneg_copy.
    + destruct (first_bad_line _ _ Hnot) as (l1 & bad & l2 & -> & Hl1 & Hbad).
      by rewrite (addOrderItems_rejected _ _ _ _ _ l1 bad l2).
  - cbn. destruct (cancelOrder_store now u id s) as [-> | (o & Ho & ->)]; [done|].
    by apply (credit_preserves_stock_inv s id o).
  - cbn. destruct (processOrderRefund_store stripe now id s)
      as [-> | (o & rr & Ho & ->)]; [done|].
    by apply (credit_preserves_stock_inv s id o).
Qed.

Lemma run_preserves_stock_inv ops s :
  Forall tidy ops → stock_inv s → stock_nonneg (run ops s).
Proof.
  intros Hops. revert s. unfold run.
  induction Hops as [|op ops Hop _ IH]; intros s Hinv; [by destruct Hinv|].
  cbn. apply IH. by apply step_preserves_stock_inv.
Qed.

(** C1. The count of a product does go below zero: a single placement that
    names the phone (5 in stock) on two lines of 3 passes the stock check
    line by line, each line against the undebited count, and is debited
    twice; it answers 201 and leaves the count at -1. *)
Theorem stock_negative_after_repeated_product :
  stock_nonneg Sample.shop ∧
  ∃ s1 pl,
    addOrderItems Sample.gateway_up "o1" Sample.alice
      (Sample.basket [Sample.line "p1" 3; Sample.line "p1" 3]) Sample.shop
    = (s1, Sent 201 pl) ∧
    s1 = run [Place Sample.gateway_up "o1" Sample.alice
                (Sample.basket [Sample.line "p1" 3; Sample.line "p1" 3])]
             Sample.shop ∧
    products s1 !! "p1" = Some {| name := "Phone"; countInStock := -1 |} ∧
    ¬ stock_nonneg s1.
Proof.
  split.
  - intros pid p.
    change (products Sample.shop)
      with ({[ "p1" := Sample.phone ]} : gmap string Product).
    intros [_ <-]%lookup_singleton_Some. cbn. lia.
  - eexists _, _. split; [vm_compute; reflexivity|].
    split; [vm_compute; reflexivity|].
    split; [vm_compute; reflexivity|].
    intros Hnn. specialize (Hnn "p1" {| name := "Phone"; countInStock := -1 |}).
    cbn in Hnn. assert (0 ≤ -1) as Hbad; [|lia].
    apply Hnn. vm_compute. reflexivity.
Qed.

(** ** Minor units *)







(** * Further properties *)

(** ** The handlers of the order controller, case by case *)

Lemma getOrderById_store u id s : (getOrderById u id s).1 = s.
Proof.
  unfold getOrderById, asyncHandler, getOrderById_fn.
  rewrite bind_run. cbn. destruct (orders s !! id) as [o|]; [|done].
  rewrite bind_run. cbn. destruct (users s !! user o); [|done].
  by destruct (negb _ && negb _).
Qed.

Lemma updateOrderToPaid_missing now u id body s :
  orders s !! id = None →
  updateOrderToPaid now u id body s
  = (s, Failed 404 {| message := "Order not found" |}).
Proof.
  intros Ho. unfold updateOrderToPaid, asyncHandler, updateOrderToPaid_fn.
  rewrite bind_run. cbn. by rewrite Ho.
Qed.

Lemma updateOrderToPaid_no_payer now u id body s o :
  orders s !! id = Some o →
  payer body = None →
  updateOrderToPaid now u id body s
  = (s, Failed 200 {| message :=
          "Cannot read properties of undefined (reading 'email_address')" |}).
Proof.
  intros Ho Hp. unfold updateOrderToPaid, asyncHandler, updateOrderToPaid_fn.
  rewrite bind_run. cbn. by rewrite Ho, Hp.
Qed.

(** The document that updateOrderToPaid saves. *)
Lemma updateOrderToPaid_saved now u id body s o address :
  orders s !! id = Some o →
  payer body = Some address →
  updateOrderToPaid now u id body s
  = let o' := set_paymentResult
                {| pr_id := pay_id body; pr_status := pay_status body;
                   update_time := pay_update_time body;
                   email_address := address |} (set_paid now o) in
    (set_orders <[id := o']> s, Sent 200 (id, o')).
Proof.
  intros Ho Hp. unfold updateOrderToPaid, asyncHandler, updateOrderToPaid_fn.
  rewrite bind_run. cbn. rewrite Ho, Hp. by destruct s.
Qed.

Lemma updateOrderToDelivered_missing now u id s :
  orders s !! id = None →
  updateOrderToDelivered now u id s
  = (s, Failed 404 {| message := "Order not found" |}).
Proof.
  intros Ho. unfold updateOrderToDelivered, asyncHandler, updateOrderToDelivered_fn.
  rewrite bind_run. cbn. by rewrite Ho.
Qed.

Lemma updateOrderToDelivered_saved now u id s o :
  orders s !! id = Some o →
  updateOrderToDelivered now u id s
  = (set_orders <[id := set_delivered now o]> s,
     Sent 200 (id, set_delivered now o)).
Proof.
  intros Ho. unfold updateOrderToDelivered, asyncHandler, updateOrderToDelivered_fn.
  rewrite bind_run. cbn. rewrite Ho. by destruct s.
Qed.

Lemma processOrderRefund_missing stripe now id s :
  orders s !! id = None →
  processOrderRefund stripe now id s
  = (s, Failed 404 {| message := "Order not found" |}).
Proof.
  intros Ho. unfold processOrderRefund, asyncHandler, processOrderRefund_fn.
  rewrite bind_run. cbn. by rewrite Ho.
Qed.

Lemma cancelOrder_missing now u id s :
  orders s !! id = None →
  cancelOrder now u id s = (s, Failed 404 {| message := "Order not found" |}).
Proof.
  intros Ho. unfold cancelOrder, asyncHandler, cancelOrder_fn.
  rewrite bind_run. cbn. by rewrite Ho.
Qed.

Lemma getOrderById_missing u id s :
  orders s !! id = None →
  getOrderById u id s = (s, Failed 404 {| message := "Order not found" |}).
Proof.
  intros Ho. unfold getOrderById, asyncHandler, getOrderById_fn.
  rewrite bind_run. cbn. by rewrite Ho.
Qed.


Lemma apply_item_copy f m item :
  apply_item f m (copy_item item) = apply_item f m item.
Proof. by destruct item. Qed.


(** X1. A request for an order id that is not in the collection: each of
    lookup, pay, deliver, refund and cancel answers 404 "Order not found"
    and returns the store as it was; the gateway is not consulted. *)
Theorem missing_order_is_not_found stripe now u id body s :
  orders s !! id = None →
  getOrderById u id s = (s, Failed 404 {| message := "Order not found" |})
  ∧ updateOrderToPaid now u id body s
    = (s, Failed 404 {| message := "Order not found" |})
  ∧ updateOrderToDelivered now u id s
    = (s, Failed 404 {| message := "Order not found" |})
  ∧ processOrderRefund stripe now id s
    = (s, Failed 404 {| message := "Order not found" |})
  ∧ cancelOrder now u id s = (s, Failed 404 {| message := "Order not found" |}).
Proof.
  intros Ho.
  split; [by apply getOrderById_missing|].
  split; [by apply updateOrderToPaid_missing|].
  split; [by apply updateOrderToDelivered_missing|].
  split; [by apply processOrderRefund_missing|].
  by apply cancelOrder_missing.
Qed.

Lemma missing_order_is_not_found_witness :
  getOrderById Sample.alice "o1" Sample.shop
  = (Sample.shop, Failed 404 {| message := "Order not found" |})
  ∧ updateOrderToPaid 1000 Sample.alice "o1"
      {| pay_id := JsString "pi_1"; pay_status := JsString "succeeded";
         pay_update_time := JsUndefined; payer := None |} Sample.shop
    = (Sample.shop, Failed 404 {| message := "Order not found" |})
  ∧ updateOrderToDelivered 1000 Sample.alice "o1" Sample.shop
    = (Sample.shop, Failed 404 {| message := "Order not found" |})
  ∧ processOrderRefund Sample.gateway_up 1000 "o1" Sample.shop
    = (Sample.shop, Failed 404 {| message := "Order not found" |})
  ∧ cancelOrder 1000 Sample.alice "o1" Sample.shop
    = (Sample.shop, Failed 404 {| message := "Order not found" |}).
Proof.
  apply (missing_order_is_not_found Sample.gateway_up 1000 Sample.alice "o1"
           {| pay_id := JsString "pi_1"; pay_status := JsString "succeeded";
              pay_update_time := JsUndefined; payer := None |} Sample.shop).
  reflexivity.
Defined.

(** X2. What a placement leaves behind, whatever the request: the users are
    untouched; an order is stored only together with the 201 answer, under
    the new id, which was free, and is the order of the answer; and when
    the handler fails with a status it has set itself (400 or 404), the
    whole store is as it was. *)
Theorem placement_outcomes stripe new_id u body s :
  users (addOrderItems stripe new_id u body s).1 = users s ∧
  match (addOrderItems stripe new_id u body s).2 with
  | Sent st pl =>
      st = 201%nat ∧ (order pl).1 = new_id ∧ orders s !! new_id = None ∧
      orders (addOrderItems stripe new_id u body s).1
      = <[new_id := (order pl).2]> (orders s)
  | Failed st e =>
      orders (addOrderItems stripe new_id u body s).1 = orders s ∧
      (st = 400%nat ∨ st = 404%nat → (addOrderItems stripe new_id u body s).1 = s)
  end.
Proof.
  destruct (req_orderItems body) as [items|] eqn:Hitems.
  2:{ by rewrite addOrderItems_no_items by auto. }
  destruct (decide (items = [])) as [->|Hne].
  { by rewrite addOrderItems_no_items by auto. }
  destruct (decide (Forall (item_ok (products s)) items)) as [Hall|Hnot].
  - rewrite (addOrderItems_accepted _ _ _ _ _ items) by done. cbn zeta.
    destruct (createPaymentIntent stripe (req_totalPrice body) "usd")
      as [e|secret].
    { cbn. split; [done|]. split; [done|]. intros [?|?]; discriminate. }
    destruct (orders s !! new_id) eqn:Hfresh.
    { cbn. split; [done|]. split; [done|]. intros [?|?]; discriminate. }
    done.
  - destruct (first_bad_line _ _ Hnot) as (l1 & bad & l2 & -> & Hl1 & Hbad).
    by rewrite (addOrderItems_rejected _ _ _ _ _ l1 bad l2).
Qed.

(** ** Pay and deliver *)

Lemma set_orders_insert_twice id (o1 o2 : Order) s :
  set_orders <[id := o2]> (set_orders <[id := o1]> s) = set_orders <[id := o2]> s.
Proof. unfold set_orders. cbn. by rewrite insert_insert_eq. Qed.

(** X3. The payment callback has no guard. For an order that exists, in
    whatever state (already paid, canceled or refunded included), it
    answers 200 and leaves products and users alone. A second callback
    replaces paidAt and paymentResult of the first: the store after both is
    the store after the second alone. A body without [payer] makes the
    handler throw before anything is saved. *)
Theorem pay_is_unguarded_and_last_wins now1 now2 u1 u2 id body1 body2 s o a1 a2 :
  orders s !! id = Some o →
  payer body1 = Some a1 →
  payer body2 = Some a2 →
  ∃ s1 o1 o2,
    updateOrderToPaid now1 u1 id body1 s = (s1, Sent 200 (id, o1)) ∧
    products s1 = products s ∧ users s1 = users s ∧
    isPaid o1 = true ∧ paidAt o1 = Some now1 ∧
    orderStatus o1 = orderStatus o ∧ isRefunded o1 = isRefunded o ∧
    updateOrderToPaid now2 u2 id body2 s = (set_orders <[id := o2]> s, Sent 200 (id, o2)) ∧
    updateOrderToPaid now2 u2 id body2 s1 = (set_orders <[id := o2]> s, Sent 200 (id, o2)) ∧
    paidAt o2 = Some now2 ∧
    paymentResult o2 = Some {| pr_id := pay_id body2; pr_status := pay_status body2;
                               update_time := pay_update_time body2;
                               email_address := a2 |} ∧
    ∀ body, payer body = None →
      updateOrderToPaid now1 u1 id body s
      = (s, Failed 200 {| message :=
              "Cannot read properties of undefined (reading 'email_address')" |}).
Proof.
  intros Ho Hp1 Hp2.
  rewrite (updateOrderToPaid_saved _ _ _ _ _ o a1) by done.
  rewrite (updateOrderToPaid_saved _ _ _ _ _ o a2) by done. cbn zeta.
  eexists _, _, _. split; [reflexivity|].
  do 6 (split; [done|]). split; [reflexivity|].
  split.
  - erewrite updateOrderToPaid_saved; [|cbn; apply lookup_insert_eq|exact Hp2].
    cbn zeta. by rewrite set_orders_insert_twice.
  - split; [done|]. split; [done|].
    intros body Hnone. by apply (updateOrderToPaid_no_payer _ _ _ _ _ o).
Qed.

Lemma pay_is_unguarded_and_last_wins_witness :
  ∃ s1 o1 o2,
    updateOrderToPaid 1000 Sample.alice "o1"
      {| pay_id := JsString "pi_1"; pay_status := JsString "succeeded";
         pay_update_time := JsString "2024-01-01";
         payer := Some (JsString "alice@example.com") |}
      (Sample.shop_with (set_canceled 500 Sample.placed))
    = (s1, Sent 200 ("o1", o1)) ∧
    products s1 = products (Sample.shop_with (set_canceled 500 Sample.placed)) ∧
    users s1 = users (Sample.shop_with (set_canceled 500 Sample.placed)) ∧
    isPaid o1 = true ∧ paidAt o1 = Some 1000 ∧
    orderStatus o1 = orderStatus (set_canceled 500 Sample.placed) ∧
    isRefunded o1 = isRefunded (set_canceled 500 Sample.placed) ∧
    updateOrderToPaid 2000 Sample.root "o1"
      {| pay_id := JsString "pi_2"; pay_status := JsString "succeeded";
         pay_update_time := JsUndefined; payer := Some JsUndefined |}
      (Sample.shop_with (set_canceled 500 Sample.placed))
    = (set_orders <["o1" := o2]> (Sample.shop_with (set_canceled 500 Sample.placed)),
       Sent 200 ("o1", o2)) ∧
    updateOrderToPaid 2000 Sample.root "o1"
      {| pay_id := JsString "pi_2"; pay_status := JsString "succeeded";
         pay_update_time := JsUndefined; payer := Some JsUndefined |} s1
    = (set_orders <["o1" := o2]> (Sample.shop_with (set_canceled 500 Sample.placed)),
       Sent 200 ("o1", o2)) ∧
    paidAt o2 = Some 2000 ∧
    paymentResult o2 = Some {| pr_id := JsString "pi_2";
                               pr_status := JsString "succeeded";
                               update_time := JsUndefined;
                               email_address := JsUndefined |} ∧
    ∀ body, payer body = None →
      updateOrderToPaid 1000 Sample.alice "o1" body
        (Sample.shop_with (set_canceled 500 Sample.placed))
      = (Sample.shop_with (set_canceled 500 Sample.placed),
         Failed 200 {| message :=
           "Cannot read properties of undefined (reading 'email_address')" |}).
Proof.
  apply (pay_is_unguarded_and_last_wins 1000 2000 Sample.alice Sample.root "o1"
           {| pay_id := JsString "pi_1"; pay_status := JsString "succeeded";
              pay_update_time := JsString "2024-01-01";
              payer := Some (JsString "alice@example.com") |}
           {| pay_id := JsString "pi_2"; pay_status := JsString "succeeded";
              pay_update_time := JsUndefined; payer := Some JsUndefined |}
           (Sample.shop_with (set_canceled 500 Sample.placed))
           (set_canceled 500 Sample.placed)
           (JsString "alice@example.com") JsUndefined);
    reflexivity.
Defined.

(** X4. Delivery has no precondition: an order that exists is marked
    delivered whatever its state (unpaid, canceled or refunded included),
    and no product count changes. From then on a cancel is rejected with
    400 "Order cannot be canceled" and changes nothing. *)
Theorem deliver_is_unguarded_and_blocks_cancel now now2 u u2 id s o :
  orders s !! id = Some o →
  ∃ s1 o1,
    updateOrderToDelivered now u id s = (s1, Sent 200 (id, o1)) ∧
    orders s1 !! id = Some o1 ∧
    isDelivered o1 = true ∧ deliveredAt o1 = Some now ∧
    orderStatus o1 = Delivered ∧
    isPaid o1 = isPaid o ∧ isRefunded o1 = isRefunded o ∧
    products s1 = products s ∧
    cancelOrder now2 u2 id s1
    = (s1, Failed 400 {| message := "Order cannot be canceled" |}).
Proof.
  intros Ho. rewrite (updateOrderToDelivered_saved _ _ _ _ o) by done.
  eexists _, _. split; [reflexivity|].
  split; [cbn; apply lookup_insert_eq|].
  do 6 (split; [done|]).
  apply (cancelOrder_terminal _ _ _ _ (set_delivered now o)).
  - cbn. apply lookup_insert_eq.
  - by right.
Qed.

Lemma deliver_is_unguarded_and_blocks_cancel_witness :
  ∃ s1 o1,
    updateOrderToDelivered 4000 Sample.root "o1" (Sample.shop_with Sample.placed)
    = (s1, Sent 200 ("o1", o1)) ∧
    orders s1 !! "o1" = Some o1 ∧
    isDelivered o1 = true ∧ deliveredAt o1 = Some 4000 ∧
    orderStatus o1 = Delivered ∧
    isPaid o1 = isPaid Sample.placed ∧ isRefunded o1 = isRefunded Sample.placed ∧
    products s1 = products (Sample.shop_with Sample.placed) ∧
    cancelOrder 5000 Sample.alice "o1" s1
    = (s1, Failed 400 {| message := "Order cannot be canceled" |}).
Proof.
  apply (deliver_is_unguarded_and_blocks_cancel 4000 5000 Sample.root Sample.alice
           "o1" (Sample.shop_with Sample.placed) Sample.placed).
  reflexivity.
Defined.

(** ** Round trips of the stock *)







(** ** Restocking twice *)






(** ** What a request can do to the store *)

Lemma addOrderItems_store stripe new_id u body s :
  (addOrderItems stripe new_id u body s).1 = s
  ∨ ∃ items,
      req_orderItems body = Some items ∧
      Forall (item_ok (products s)) items ∧
      ((addOrderItems stripe new_id u body s).1
       = set_products (λ m, foldl (apply_item Z.sub) m items) s
       ∨ orders s !! new_id = None ∧
         ∃ secret,
           (addOrderItems stripe new_id u body s).1
           = set_orders <[new_id := placed_order items u body secret]>
               (set_products (λ m, foldl (apply_item Z.sub) m items) s)).
Proof.
  destruct (req_orderItems body) as [items|] eqn:Hitems.
  2:{ left. by rewrite addOrderItems_no_items by auto. }
  destruct (decide (items = [])) as [->|Hne].
  { left. by rewrite addOrderItems_no_items by auto. }
  destruct (decide (Forall (item_ok (products s)) items)) as [Hall|Hnot].
  - right. exists items. split; [done|]. split; [done|].
    rewrite (addOrderItems_accepted _ _ _ _ _ items) by done. cbn zeta.
    destruct (createPaymentIntent stripe (req_totalPrice body) "usd")
      as [e|secret]; [by left|].
    destruct (orders s !! new_id) eqn:Hfresh; [by left|].
    right. split; [done|]. by exists secret.
  - left. destruct (first_bad_line _ _ Hnot) as (l1 & bad & l2 & -> & Hl1 & Hbad).
    by rewrite (addOrderItems_rejected _ _ _ _ _ l1 bad l2).
Qed.

Lemma updateOrderToPaid_store now u id body s :
  (updateOrderToPaid now u id body s).1 = s
  ∨ ∃ o pr, orders s !! id = Some o ∧
            (updateOrderToPaid now u id body s).1
            = set_orders <[id := set_paymentResult pr (set_paid now o)]> s.
Proof.
  destruct (orders s !! id) as [o|] eqn:Ho.
  - destruct (payer body) as [a|] eqn:Hp.
    + right. rewrite (updateOrderToPaid_saved _ _ _ _ _ o a) by done.
      by eexists o, _.
    + left. by rewrite (updateOrderToPaid_no_payer _ _ _ _ _ o).
  - left. by rewrite updateOrderToPaid_missing.
Qed.

Lemma updateOrderToDelivered_store now u id s :
  (updateOrderToDelivered now u id s).1 = s
  ∨ ∃ o, orders s !! id = Some o ∧
         (updateOrderToDelivered now u id s).1
         = set_orders <[id := set_delivered now o]> s.
Proof.
  destruct (orders s !! id) as [o|] eqn:Ho.
  - right. rewrite (updateOrderToDelivered_saved _ _ _ _ o) by done. by exists o.
  - left. by rewrite updateOrderToDelivered_missing.
Qed.

(** A refund writes only for an order that was paid and not yet refunded. *)
Lemma processOrderRefund_store_guarded stripe now id s :
  (processOrderRefund stripe now id s).1 = s
  ∨ ∃ o rr, orders s !! id = Some o ∧ isPaid o = true ∧ isRefunded o = false ∧
            (processOrderRefund stripe now id s).1
            = set_orders <[id := set_refunded now rr o]>
                (set_products (λ m, foldl (apply_item Z.add) m (orderItems o)) s).
Proof.
  destruct (orders s !! id) as [o|] eqn:Ho.
  2:{ left. by rewrite processOrderRefund_missing. }
  destruct (negb (isPaid o) || isRefunded o) eqn:Hg.
  { left. by rewrite (processOrderRefund_not_eligible _ _ _ _ o). }
  apply orb_false_elim in Hg as [Hpaid Hnot]. apply negb_false_iff in Hpaid.
  destruct (paymentResult o) as [pr|] eqn:Hpr.
  - rewrite (processOrderRefund_eligible _ _ _ _ o pr) by done.
    destruct (refunds_create stripe _) as [e|refund]; [by left|].
    right. by eexists o, _.
  - left. unfold processOrderRefund, asyncHandler, processOrderRefund_fn.
    rewrite bind_run. cbn. rewrite Ho, Hpaid, Hnot. cbn.
    unfold try_catch, refund_body. by rewrite Hpr, bind_run.
Qed.

Lemma getProductById_cases id s :
  getProductById id s
  = match products s !! id with
    | Some p => (s, Sent 200 (id, p))
    | None => (s, Failed 404 {| message := "Product not found" |})
    end.
Proof.
  unfold getProductById, asyncHandler, getProductById_fn.
  rewrite bind_run. cbn. by destruct (products s !! id).
Qed.

Lemma updateProduct_cases id body s :
  updateProduct id body s
  = match products s !! id with
    | Some p =>
        let p' := {| name := or_string (body_name body) (name p);
                     countInStock := or_number (body_countInStock body)
                                       (countInStock p) |} in
        (set_products <[id := p']> s, Sent 200 (id, p'))
    | None => (s, Failed 404 {| message := "Product not found" |})
    end.
Proof.
  unfold updateProduct, asyncHandler, updateProduct_fn.
  rewrite bind_run. cbn. destruct (products s !! id); [|done]. by destruct s.
Qed.

Lemma deleteProduct_cases id s :
  deleteProduct id s
  = match products s !! id with
    | Some p => (set_products (delete id) s, Sent 200 "Product removed")
    | None => (s, Failed 404 {| message := "Product not found" |})
    end.
Proof.
  unfold deleteProduct, asyncHandler, deleteProduct_fn.
  rewrite bind_run. cbn. destruct (products s !! id); [|done]. by destruct s.
Qed.

Lemma getUserById_cases id s :
  getUserById id s
  = match users s !! id with
    | Some u => (s, Sent 200 (id, u))
    | None => (s, Failed 404 {| message := "User not found" |})
    end.
Proof.
  unfold getUserById, asyncHandler, getUserById_fn.
  rewrite bind_run. cbn. by destruct (users s !! id).
Qed.

Lemma updateUser_cases id body s :
  updateUser id body s
  = match users s !! id with
    | Some u =>
        let u' := {| firstName := or_string (body_firstName body) (firstName u);
                     lastName := or_string (body_lastName body) (lastName u);
                     email := or_string (body_email body) (email u);
                     user_role := or_string (body_role body) (user_role u) |} in
        (set_users <[id := u']> s, Sent 200 (id, u'))
    | None => (s, Failed 404 {| message := "User not found" |})
    end.
Proof.
  unfold updateUser, asyncHandler, updateUser_fn.
  rewrite bind_run. cbn. destruct (users s !! id); [|done]. by destruct s.
Qed.

Lemma deleteUser_cases id s :
  deleteUser id s
  = match users s !! id with
    | Some u => (set_users (delete id) s, Sent 200 "User removed")
    | None => (s, Failed 404 {| message := "User not found" |})
    end.
Proof.
  unfold deleteUser, asyncHandler, deleteUser_fn.
  rewrite bind_run. cbn. destruct (users s !! id); [|done]. by destruct s.
Qed.

(** ** Orders over time *)






(** ** The catalogue under the order controller *)

Lemma name_after_stock_loop f items (m : gmap string Product) pid :
  name <$> foldl (apply_item f) m items !! pid = name <$> m !! pid.
Proof.
  rewrite lookup_foldl_apply_item. by destruct (m !! pid).
Qed.

Lemma handle_order_request_catalogue r s :
  order_request r = true →
  users (handle s r) = users s
  ∧ ∀ pid, name <$> products (handle s r) !! pid = name <$> products s !! pid.
Proof.
  destruct r as [stripe new_id u body | u id1 | now u id1 body | now u id1
                | stripe now id1 | now u id1 | id1 | id1 body | id1
                | id1 | id1 body | id1]; cbn [handle order_request];
    intros Hr; try discriminate.
  - destruct (addOrderItems_store stripe new_id u body s)
      as [-> | (items & _ & _ & [-> | (Hfresh & secret & ->)])]; [done|..];
      (split; [done|]); intros pid; cbn; apply name_after_stock_loop.
  - by rewrite getOrderById_store.
  - by destruct (updateOrderToPaid_store now u id1 body s)
      as [-> | (o0 & pr & H0 & ->)].
  - by destruct (updateOrderToDelivered_store now u id1 s)
      as [-> | (o0 & H0 & ->)].
  - destruct (processOrderRefund_store_guarded stripe now id1 s)
      as [-> | (o0 & rr & H0 & _ & _ & ->)]; [done|].
    split; [done|]. intros pid. cbn. apply name_after_stock_loop.
  - destruct (cancelOrder_store now u id1 s) as [-> | (o0 & H0 & ->)]; [done|].
    split; [done|]. intros pid. cbn. apply name_after_stock_loop.
Qed.

(** X11. The order controller never adds, removes or renames a product
    and never touches a user: through any sequence of placements, lookups,
    payments, deliveries, refunds and cancels, the same product ids exist
    under the same names (only counts move), so restocking an order does
    not bring back a product that was deleted, and the User collection is
    what it was. *)
Theorem order_requests_keep_catalogue rs s :
  forallb order_request rs = true →
  users (serve rs s) = users s
  ∧ ∀ pid, name <$> products (serve rs s) !! pid = name <$> products s !! pid.
Proof.
  unfold serve. revert s. induction rs as [|r rs IH]; intros s Hrs; [done|].
  cbn in Hrs. apply andb_prop in Hrs as [Hr Hrs]. cbn [foldl].
  destruct (IH (handle s r) Hrs) as [Hu Hn].
  destruct (handle_order_request_catalogue r s Hr) as [Hu1 Hn1].
  split; [congruence|]. intros pid. by rewrite Hn, Hn1.
Qed.

Lemma order_requests_keep_catalogue_witness :
  users (serve [CancelOrder 3000 Sample.alice "o1";
                AddOrderItems Sample.gateway_up "o2" Sample.alice
                  (Sample.basket [Sample.line "p1" 1]);
                CancelOrder 4000 Sample.alice "o1"]
           (set_products (delete "p1") (Sample.shop_with Sample.placed)))
  = users (set_products (delete "p1") (Sample.shop_with Sample.placed))
  ∧ ∀ pid,
      name <$> products
                 (serve [CancelOrder 3000 Sample.alice "o1";
                         AddOrderItems Sample.gateway_up "o2" Sample.alice
                           (Sample.basket [Sample.line "p1" 1]);
                         CancelOrder 4000 Sample.alice "o1"]
                    (set_products (delete "p1") (Sample.shop_with Sample.placed)))
               !! pid
      = name <$> products (set_products (delete "p1")
                             (Sample.shop_with Sample.placed)) !! pid.
Proof.
  apply (order_requests_keep_catalogue
           [CancelOrder 3000 Sample.alice "o1";
            AddOrderItems Sample.gateway_up "o2" Sample.alice
              (Sample.basket [Sample.line "p1" 1]);
            CancelOrder 4000 Sample.alice "o1"]
           (set_products (delete "p1") (Sample.shop_with Sample.placed))).
  reflexivity.
Defined.

(** ** Stock at or above zero *)

Lemma run_preserves_stock_inv_witness :
  stock_nonneg
    (run [Place Sample.gateway_up "o1" Sample.alice
            (Sample.basket [Sample.line "p1" 3]);
          Place Sample.gateway_down "o2" Sample.alice
            (Sample.basket [Sample.line "p1" 2]);
          Cancel 3000 Sample.alice "o1";
          RefundOrder Sample.gateway_up 4000 "o1";
          Cancel 5000 Sample.alice "o1"]
       Sample.shop).
Proof.
  apply (run_preserves_stock_inv
           [Place Sample.gateway_up "o1" Sample.alice
              (Sample.basket [Sample.line "p1" 3]);
            Place Sample.gateway_down "o2" Sample.alice
              (Sample.basket [Sample.line "p1" 2]);
            Cancel 3000 Sample.alice "o1";
            RefundOrder Sample.gateway_up 4000 "o1";
            Cancel 5000 Sample.alice "o1"]
           Sample.shop).
  - constructor.
    { intros items [= <-]. split.
      - apply (bool_decide_unpack _). vm_compute. exact I.
      - constructor; [cbn; lia | constructor]. }
    constructor.
    { intros items [= <-]. split.
      - apply (bool_decide_unpack _). vm_compute. exact I.
      - constructor; [cbn; lia | constructor]. }
    constructor; [exact I|]. constructor; [exact I|].
    constructor; [exact I|]. constructor.
  - split.
    + intros pid p.
      change (products Sample.shop)
        with ({[ "p1" := Sample.phone ]} : gmap string Product).
      intros [_ <-]%lookup_singleton_Some. cbn. lia.
    + intros id o. change (orders Sample.shop) with (∅ : gmap string Order).
      by rewrite lookup_empty.
Defined.

(** ** The product controller *)

Lemma or_number_idem x y : or_number x (or_number x y) = or_number x y.
Proof. destruct x as [n|]; [|done]. cbn. by destruct (n =? 0). Qed.

Lemma or_string_idem x y : or_string x (or_string x y) = or_string x y.
Proof. destruct x as [t|]; [|done]. cbn. by destruct (String.eqb t ""). Qed.

(** X12. Deleting a product that exists answers 200 "Product removed" and
    takes only that product out of the store. From then on a lookup, an
    update and a second delete of it answer 404 "Product not found", and a
    placement with a line that names it fails (400 or 404) without
    changing anything. *)
Theorem deleted_product_is_gone id s p :
  products s !! id = Some p →
  ∃ s1,
    deleteProduct id s = (s1, Sent 200 "Product removed") ∧
    orders s1 = orders s ∧ users s1 = users s ∧
    products s1 !! id = None ∧
    (∀ pid, pid ≠ id → products s1 !! pid = products s !! pid) ∧
    getProductById id s1 = (s1, Failed 404 {| message := "Product not found" |}) ∧
    (∀ body, updateProduct id body s1
             = (s1, Failed 404 {| message := "Product not found" |})) ∧
    deleteProduct id s1 = (s1, Failed 404 {| message := "Product not found" |}) ∧
    ∀ stripe new_id u body items item,
      req_orderItems body = Some items →
      item ∈ items → product item = id →
      ∃ st e,
        addOrderItems stripe new_id u body s1 = (s1, Failed st e) ∧
        (st = 400%nat ∨ st = 404%nat).
Proof.
  intros Hp. rewrite deleteProduct_cases, Hp.
  eexists. split; [reflexivity|]. split; [done|]. split; [done|].
  assert (Hgone : products (set_products (delete id) s) !! id = None)
    by (cbn; apply lookup_delete_eq).
  split; [done|].
  split; [intros pid Hne; cbn; by rewrite lookup_delete_ne|].
  split; [by rewrite getProductById_cases, Hgone|].
  split; [intros body; by rewrite updateProduct_cases, Hgone|].
  split; [by rewrite deleteProduct_cases, Hgone|].
  intros stripe new_id u body items item Hitems Hin Hid.
  destruct (first_bad_line (products (set_products (delete id) s)) items)
    as (l1 & bad & l2 & -> & Hl1 & Hbad).
  { rewrite Forall_forall. intros Hall.
    destruct (Hall item Hin) as (p' & Hp' & _). congruence. }
  rewrite (addOrderItems_rejected _ _ _ _ _ l1 bad l2) by done.
  eexists _, _. split; [reflexivity|].
  unfold check_failure. destruct (_ !! product bad); [by left|by right].
Qed.

Lemma deleted_product_is_gone_witness :
  ∃ s1,
    deleteProduct "p1" Sample.shop = (s1, Sent 200 "Product removed") ∧
    orders s1 = orders Sample.shop ∧ users s1 = users Sample.shop ∧
    products s1 !! "p1" = None ∧
    (∀ pid, pid ≠ "p1" → products s1 !! pid = products Sample.shop !! pid) ∧
    getProductById "p1" s1 = (s1, Failed 404 {| message := "Product not found" |}) ∧
    (∀ body, updateProduct "p1" body s1
             = (s1, Failed 404 {| message := "Product not found" |})) ∧
    deleteProduct "p1" s1 = (s1, Failed 404 {| message := "Product not found" |}) ∧
    ∀ stripe new_id u body items item,
      req_orderItems body = Some items →
      item ∈ items → product item = "p1" →
      ∃ st e,
        addOrderItems stripe new_id u body s1 = (s1, Failed st e) ∧
        (st = 400%nat ∨ st = 404%nat).
Proof.
  apply (deleted_product_is_gone "p1" Sample.shop Sample.phone). reflexivity.
Defined.

(** X13. An update of a product that exists answers 200 with the stored
    document, which a lookup then returns, and sending the same body again
    changes nothing more. A field is taken from the body unless it is
    absent or falsy: a countInStock of 0 is ignored, so the stock cannot be
    set to zero this way, while any other integer, negative ones included,
    is stored as it is; an empty name is ignored likewise. Orders and users
    are untouched. *)
Theorem updateProduct_ignores_zero id body s p :
  products s !! id = Some p →
  ∃ s1 p1,
    updateProduct id body s = (s1, Sent 200 (id, p1)) ∧
    products s1 = <[id := p1]> (products s) ∧
    orders s1 = orders s ∧ users s1 = users s ∧
    (body_countInStock body = None ∨ body_countInStock body = Some 0 →
     countInStock p1 = countInStock p) ∧
    (∀ n, body_countInStock body = Some n → n ≠ 0 → countInStock p1 = n) ∧
    (body_name body = None ∨ body_name body = Some "" → name p1 = name p) ∧
    (∀ x, body_name body = Some x → x ≠ "" → name p1 = x) ∧
    getProductById id s1 = (s1, Sent 200 (id, p1)) ∧
    updateProduct id body s1 = (s1, Sent 200 (id, p1)).
Proof.
  intros Hp. rewrite updateProduct_cases, Hp. cbn zeta.
  eexists _, _. split; [reflexivity|]. split; [done|]. split; [done|].
  split; [done|].
  split; [by intros [-> | ->]|].
  split.
  { intros n -> Hn. cbn. apply Z.eqb_neq in Hn. by rewrite Hn. }
  split; [by intros [-> | ->]|].
  split.
  { intros x -> Hx. cbn. apply String.eqb_neq in Hx. by rewrite Hx. }
  split.
  - rewrite getProductById_cases. cbn. by rewrite lookup_insert_eq.
  - rewrite updateProduct_cases. cbn. rewrite lookup_insert_eq. cbn.
    rewrite or_number_idem, or_string_idem.
    unfold set_products. cbn. by rewrite insert_insert_eq.
Qed.

Lemma updateProduct_ignores_zero_witness :
  ∃ s1 p1,
    updateProduct "p1" {| body_name := Some ""; body_countInStock := Some 0 |}
      Sample.shop
    = (s1, Sent 200 ("p1", p1)) ∧
    products s1 = <["p1" := p1]> (products Sample.shop) ∧
    orders s1 = orders Sample.shop ∧ users s1 = users Sample.shop ∧
    (Some 0 = None ∨ Some 0 = Some 0 → countInStock p1 = countInStock Sample.phone) ∧
    (∀ n, Some 0 = Some n → n ≠ 0 → countInStock p1 = n) ∧
    (Some "" = None ∨ Some "" = Some "" → name p1 = name Sample.phone) ∧
    (∀ x, Some "" = Some x → x ≠ "" → name p1 = x) ∧
    getProductById "p1" s1 = (s1, Sent 200 ("p1", p1)) ∧
    updateProduct "p1" {| body_name := Some ""; body_countInStock := Some 0 |} s1
    = (s1, Sent 200 ("p1", p1)).
Proof.
  apply (updateProduct_ignores_zero "p1"
           {| body_name := Some ""; body_countInStock := Some 0 |}
           Sample.shop Sample.phone).
  reflexivity.
Defined.

(** ** The user controller *)

(** X14. An update of a user that exists answers 200 with the stored
    document, which a lookup by id then returns, and sending the same body
    again changes nothing more. Each of firstName, lastName, email and role
    is taken from the body unless it is absent or empty, in which case the
    stored value stays: a field cannot be blanked. Orders and products are
    untouched. *)
Theorem updateUser_keeps_on_empty id body s u0 :
  users s !! id = Some u0 →
  ∃ s1 u1,
    updateUser id body s = (s1, Sent 200 (id, u1)) ∧
    users s1 = <[id := u1]> (users s) ∧
    orders s1 = orders s ∧ products s1 = products s ∧
    firstName u1 = or_string (body_firstName body) (firstName u0) ∧
    lastName u1 = or_string (body_lastName body) (lastName u0) ∧
    email u1 = or_string (body_email body) (email u0) ∧
    user_role u1 = or_string (body_role body) (user_role u0) ∧
    (body_role body = None ∨ body_role body = Some "" → user_role u1 = user_role u0) ∧
    (∀ x, body_role body = Some x → x ≠ "" → user_role u1 = x) ∧
    getUserById id s1 = (s1, Sent 200 (id, u1)) ∧
    updateUser id body s1 = (s1, Sent 200 (id, u1)).
Proof.
  intros Hu. rewrite updateUser_cases, Hu. cbn zeta.
  eexists _, _. split; [reflexivity|].
  do 7 (split; [done|]).
  split; [by intros [-> | ->]|].
  split.
  { intros x -> Hx. cbn. apply String.eqb_neq in Hx. by rewrite Hx. }
  split.
  - rewrite getUserById_cases. cbn. by rewrite lookup_insert_eq.
  - rewrite updateUser_cases. cbn. rewrite lookup_insert_eq. cbn.
    rewrite !or_string_idem.
    unfold set_users. cbn. by rewrite insert_insert_eq.
Qed.

Lemma updateUser_keeps_on_empty_witness :
  ∃ s1 u1,
    updateUser "u1"
      {| body_firstName := Some "Alicia"; body_lastName := Some "";
         body_email := None; body_role := Some "admin" |} Sample.shop
    = (s1, Sent 200 ("u1", u1)) ∧
    users s1 = <["u1" := u1]> (users Sample.shop) ∧
    orders s1 = orders Sample.shop ∧ products s1 = products Sample.shop ∧
    firstName u1 = or_string (Some "Alicia") (firstName Sample.alice_doc) ∧
    lastName u1 = or_string (Some "") (lastName Sample.alice_doc) ∧
    email u1 = or_string None (email Sample.alice_doc) ∧
    user_role u1 = or_string (Some "admin") (user_role Sample.alice_doc) ∧
    (Some "admin" = None ∨ Some "admin" = Some "" →
     user_role u1 = user_role Sample.alice_doc) ∧
    (∀ x, Some "admin" = Some x → x ≠ "" → user_role u1 = x) ∧
    getUserById "u1" s1 = (s1, Sent 200 ("u1", u1)) ∧
    updateUser "u1"
      {| body_firstName := Some "Alicia"; body_lastName := Some "";
         body_email := None; body_role := Some "admin" |} s1
    = (s1, Sent 200 ("u1", u1)).
Proof.
  apply (updateUser_keeps_on_empty "u1"
           {| body_firstName := Some "Alicia"; body_lastName := Some "";
              body_email := None; body_role := Some "admin" |}
           Sample.shop Sample.alice_doc).
  reflexivity.
Defined.

(** X15. Deleting a user that exists answers 200 "User removed" and takes
    only the user's document away: the user's orders stay in the Order
    collection. A lookup of such an order then fails for every caller, the
    owner and admins included, with the TypeError of reading [_id] of the
    [null] that populate leaves (no status is set), while the profile
    lookups of the deleted user answer 404 "User not found". *)
Theorem deleted_user_orphans_orders uid s u0 :
  users s !! uid = Some u0 →
  ∃ s1,
    deleteUser uid s = (s1, Sent 200 "User removed") ∧
    orders s1 = orders s ∧ products s1 = products s ∧
    getUserById uid s1 = (s1, Failed 404 {| message := "User not found" |}) ∧
    (∀ caller, _id caller = uid →
       getUserProfile caller s1
       = (s1, Failed 404 {| message := "User not found" |})) ∧
    ∀ caller id o,
      orders s !! id = Some o → user o = uid →
      getOrderById caller id s1
      = (s1, Failed 200 {| message :=
               "Cannot read properties of null (reading '_id')" |}).
Proof.
  intros Hu. rewrite deleteUser_cases, Hu.
  eexists. split; [reflexivity|]. split; [done|]. split; [done|].
  assert (Hgone : users (set_users (delete uid) s) !! uid = None)
    by (cbn; apply lookup_delete_eq).
  split; [by rewrite getUserById_cases, Hgone|].
  split.
  { intros caller <-. unfold getUserProfile. fold (getUserById (_id caller)).
    by rewrite getUserById_cases, Hgone. }
  intros caller id o Ho <-.
  unfold getOrderById, asyncHandler, getOrderById_fn.
  rewrite bind_run. cbn. rewrite Ho. rewrite bind_run. cbn.
  by rewrite lookup_delete_eq.
Qed.

Lemma deleted_user_orphans_orders_witness :
  ∃ s1,
    deleteUser "u1" (Sample.shop_with Sample.placed) = (s1, Sent 200 "User removed") ∧
    orders s1 = orders (Sample.shop_with Sample.placed) ∧
    products s1 = products (Sample.shop_with Sample.placed) ∧
    getUserById "u1" s1 = (s1, Failed 404 {| message := "User not found" |}) ∧
    (∀ caller, _id caller = "u1" →
       getUserProfile caller s1
       = (s1, Failed 404 {| message := "User not found" |})) ∧
    ∀ caller id o,
      orders (Sample.shop_with Sample.placed) !! id = Some o → user o = "u1" →
      getOrderById caller id s1
      = (s1, Failed 200 {| message :=
               "Cannot read properties of null (reading '_id')" |}).
Proof.
  apply (deleted_user_orphans_orders "u1" (Sample.shop_with Sample.placed)
           Sample.alice_doc).
  reflexivity.
Defined.

(** ** The password reset *)

Module ResetFacts.

Import PasswordReset.

Lemma saved_saved u1 u2 (l : list Account) :
  account_id u2 = account_id u1 → saved u2 (saved u1 l) = saved u2 l.
Proof.
  intros Hid. unfold saved. induction l as [|v l IH]; [done|].
  cbn. rewrite IH. f_equal.
  destruct (String.eqb (account_id v) (account_id u1)) eqn:E.
  - by rewrite Hid, String.eqb_refl, E.
  - by rewrite Hid, E.
Qed.

(** After a save, a search finds the saved document first when it passes
    the filter and no document with another id does. *)
Lemma find_saved (P : Account → bool) u1 (l : list Account) :
  P u1 = true →
  (∃ v, v ∈ l ∧ account_id v = account_id u1) →
  (∀ v, v ∈ l → account_id v ≠ account_id u1 → P v = false) →
  List.find P (saved u1 l) = Some u1.
Proof.
  intros HP (v0 & Hin & Hid) Hothers.
  induction l as [|v l IH]; [by apply elem_of_nil in Hin|].
  cbn. destruct (String.eqb (account_id v) (account_id u1)) eqn:E.
  - by rewrite HP.
  - apply String.eqb_neq in E. rewrite (Hothers v) by (by left || done).
    apply IH.
    + apply elem_of_cons in Hin as [-> | Hin]; [done|done].
    + intros w Hw. apply Hothers. by right.
Qed.

Lemma find_saved_none (P : Account → bool) u1 (l : list Account) :
  P u1 = false →
  (∀ v, v ∈ l → account_id v ≠ account_id u1 → P v = false) →
  List.find P (saved u1 l) = None.
Proof.
  intros HP Hothers. induction l as [|v l IH]; [done|].
  cbn. destruct (String.eqb (account_id v) (account_id u1)) eqn:E.
  - rewrite HP. apply IH. intros w Hw. apply Hothers. by right.
  - apply String.eqb_neq in E. rewrite (Hothers v) by (by left || done).
    apply IH. intros w Hw. apply Hothers. by right.
Qed.

Lemma find_elem (P : Account → bool) (l : list Account) u :
  List.find P l = Some u → u ∈ l ∧ P u = true.
Proof.
  induction l as [|v l IH]; [done|]. cbn. destruct (P v) eqn:E.
  - intros [= <-]. split; [by left|done].
  - intros H. destruct (IH H). split; [by right|done].
Qed.

Lemma find_none_all (P : Account → bool) (l : list Account) :
  (∀ v, v ∈ l → P v = false) → List.find P l = None.
Proof.
  induction l as [|v l IH]; [done|]. intros H. cbn.
  rewrite (H v) by by left. apply IH. intros w Hw. apply H. by right.
Qed.

Lemma forgotPassword_cases env tok now mail_address l sent :
  forgotPassword env tok now mail_address l sent
  = match List.find (λ u, String.eqb (account_email u) mail_address) l with
    | None => (l, sent, Failed 404 {| message := "No user found with this email" |})
    | Some user =>
        (saved (set_reset (Some (sha256_hex env tok)) (Some (now + 600000)) user) l,
         match sendMail env (reset_mail env user tok) with
         | None => sent ++ [reset_mail env user tok]
         | Some _ => sent
         end,
         Sent 200 "Password reset email sent")
    end.
Proof.
  unfold forgotPassword, handler, forgotPassword_fn, User_findOne, mbind, R_bind.
  cbn. destruct (List.find _ l) as [user|]; [|done].
  cbn. unfold try_catch_error, sendPasswordResetEmail, try_catch_error,
    transporter_sendMail, reset_mail. cbn.
  by destruct (sendMail env _).
Qed.

Lemma resetPassword_cases env now tok pw l sent :
  resetPassword env now tok pw l sent
  = match List.find (token_filter (sha256_hex env tok) now) l with
    | None => (l, sent, Failed 400 {| message := "Invalid or expired reset token" |})
    | Some user =>
        (saved (set_reset None None (set_password pw user)) l, sent,
         Sent 200 "Password reset successful")
    end.
Proof.
  unfold resetPassword, handler, resetPassword_fn, User_findOne, mbind, R_bind.
  cbn. by destruct (List.find _ l).
Qed.

Lemma token_filter_holds h now v : token_filter h now v = true → holds h v.
Proof.
  unfold token_filter, holds.
  destruct (resetPasswordToken v) as [t|]; [|done].
  destruct (resetPasswordExpire v); [|done].
  intros [Ht _]%andb_prop. apply String.eqb_eq in Ht. by subst.
Qed.

Lemma token_filter_others h now (l : list Account) id0 :
  (∀ v, v ∈ l → account_id v ≠ id0 → ¬ holds h v) →
  ∀ v, v ∈ l → account_id v ≠ id0 → token_filter h now v = false.
Proof.
  intros Hothers v Hv Hne. destruct (token_filter h now v) eqn:E; [|done].
  destruct (Hothers v Hv Hne). by apply (token_filter_holds _ now).
Qed.

(** X16. A reset request for an address that some account has always
    answers 200 "Password reset email sent", whether the mail transport
    delivers or fails: sendPasswordResetEmail swallows the transport's
    error, so the rollback branch of forgotPassword never runs and the
    digest of the token and its expiry, ten minutes ahead, stay on the
    first account with that address. When the transport delivers, the mail
    goes to that address and its link ends in the token. *)
Theorem forgot_password_never_rolls_back env tok now mail_address l sent user :
  List.find (λ u, String.eqb (account_email u) mail_address) l = Some user →
  ∃ sent1,
    forgotPassword env tok now mail_address l sent
    = (saved (set_reset (Some (sha256_hex env tok)) (Some (now + 600000)) user) l,
       sent1, Sent 200 "Password reset email sent") ∧
    account_email user = mail_address ∧
    (∀ e, sendMail env (reset_mail env user tok) = Some e → sent1 = sent) ∧
    (sendMail env (reset_mail env user tok) = None →
     sent1 = sent ++ [{| mail_from := EMAIL_FROM env;
                         mail_to := mail_address;
                         mail_subject := "Password Reset Request";
                         mail_resetUrl :=
                           FRONTEND_URL env +:+ "/reset-password/" +:+ tok |}]).
Proof.
  intros Hfind. rewrite forgotPassword_cases, Hfind.
  apply find_elem in Hfind as [_ Hmail]. apply String.eqb_eq in Hmail.
  eexists. split; [reflexivity|]. split; [done|].
  split; [by intros e ->|]. intros ->. unfold reset_mail. by rewrite Hmail.
Qed.

Lemma forgot_password_never_rolls_back_witness :
  ∃ sent1,
    forgotPassword env_down "t0k3n" 1000 "ann@example.com" [ben; ann] []
    = (saved (set_reset (Some (sha256_hex env_down "t0k3n")) (Some (1000 + 600000)) ann)
         [ben; ann],
       sent1, Sent 200 "Password reset email sent") ∧
    account_email ann = "ann@example.com" ∧
    (∀ e, sendMail env_down (reset_mail env_down ann "t0k3n") = Some e → sent1 = []) ∧
    (sendMail env_down (reset_mail env_down ann "t0k3n") = None →
     sent1 = [] ++ [{| mail_from := EMAIL_FROM env_down;
                       mail_to := "ann@example.com";
                       mail_subject := "Password Reset Request";
                       mail_resetUrl :=
                         FRONTEND_URL env_down +:+ "/reset-password/" +:+ "t0k3n" |}]).
Proof.
  apply (forgot_password_never_rolls_back env_down "t0k3n" 1000 "ann@example.com"
           [ben; ann] [] ann).
  reflexivity.
Defined.

(** X17. The token of a reset request works for ten minutes and not a
    millisecond longer. Let the request at time [now] have reached the
    account [user], and let no other account hold the token's digest. A
    reset with that token at a time before [now + 600000] answers 200: the
    account gets the new password and loses token and expiry, and nothing
    else changes. At [now + 600000] or later the reset answers 400 "Invalid
    or expired reset token" and changes nothing. No mail is sent either
    way. *)
Theorem reset_token_lives_ten_minutes
    env tok now mail_address l sent user l1 sent1 out now' pw sent' :
  List.find (λ u, String.eqb (account_email u) mail_address) l = Some user →
  (∀ v, v ∈ l → account_id v ≠ account_id user → ¬ holds (sha256_hex env tok) v) →
  forgotPassword env tok now mail_address l sent = (l1, sent1, out) →
  (now' < now + 600000 →
   resetPassword env now' tok pw l1 sent'
   = (saved (set_reset None None (set_password pw user)) l, sent',
      Sent 200 "Password reset successful"))
  ∧
  (now + 600000 ≤ now' →
   resetPassword env now' tok pw l1 sent'
   = (l1, sent', Failed 400 {| message := "Invalid or expired reset token" |})).
Proof.
  intros Hfind Hothers Hforgot.
  rewrite forgotPassword_cases, Hfind in Hforgot.
  injection Hforgot as <- _ _.
  set (user1 := set_reset (Some (sha256_hex env tok)) (Some (now + 600000)) user).
  assert (Hin : user ∈ l) by (by apply find_elem in Hfind as [? _]).
  split; intros Hnow; rewrite resetPassword_cases.
  - rewrite (find_saved _ user1).
    + by rewrite saved_saved.
    + unfold token_filter, user1. cbn. rewrite String.eqb_refl. cbn. lia.
    + by exists user.
    + by apply token_filter_others.
  - rewrite (find_saved_none _ user1); [done|..].
    + unfold token_filter, user1. cbn. rewrite String.eqb_refl. cbn. lia.
    + by apply token_filter_others.
Qed.

Lemma reset_token_lives_ten_minutes_witness :
  resetPassword env_up 600999 "t0k3n" (Some "new")
    (saved (set_reset (Some (sha256_hex env_up "t0k3n")) (Some 601000) ann) [ben; ann])
    []
  = (saved (set_reset None None (set_password (Some "new") ann)) [ben; ann], [],
     Sent 200 "Password reset successful")
  ∧ resetPassword env_up 601000 "t0k3n" (Some "new")
      (saved (set_reset (Some (sha256_hex env_up "t0k3n")) (Some 601000) ann) [ben; ann])
      []
    = (saved (set_reset (Some (sha256_hex env_up "t0k3n")) (Some 601000) ann) [ben; ann],
       [], Failed 400 {| message := "Invalid or expired reset token" |}).
Proof.
  assert (Hothers : ∀ v, v ∈ [ben; ann] → account_id v ≠ account_id ann →
                         ¬ holds (sha256_hex env_up "t0k3n") v).
  { intros v Hv Hne. apply elem_of_cons in Hv as [-> | Hv]; [discriminate|].
    apply elem_of_cons in Hv as [-> | Hv]; [done|]. by apply elem_of_nil in Hv. }
  split.
  - apply (reset_token_lives_ten_minutes env_up "t0k3n" 1000 "ann@example.com"
             [ben; ann] [] ann _ _ _ 600999 (Some "new") []
             eq_refl Hothers eq_refl).
    lia.
  - apply (reset_token_lives_ten_minutes env_up "t0k3n" 1000 "ann@example.com"
             [ben; ann] [] ann _ _ _ 601000 (Some "new") []
             eq_refl Hothers eq_refl).
    lia.
Defined.

(** X18. A reset token works once. When a reset with a token goes through
    for the account [user], and no other account holds the token's digest,
    every later reset with the same token, at any time and with any
    password, answers 400 "Invalid or expired reset token" and changes
    nothing: the password stays the one of the first reset. *)
Theorem reset_token_works_once env now tok pw l sent user :
  List.find (token_filter (sha256_hex env tok) now) l = Some user →
  (∀ v, v ∈ l → account_id v ≠ account_id user → ¬ holds (sha256_hex env tok) v) →
  ∃ l1,
    resetPassword env now tok pw l sent
    = (l1, sent, Sent 200 "Password reset successful") ∧
    List.find (λ v, String.eqb (account_id v) (account_id user)) l1
    = Some (set_reset None None (set_password pw user)) ∧
    ∀ now2 pw2 sent2,
      resetPassword env now2 tok pw2 l1 sent2
      = (l1, sent2, Failed 400 {| message := "Invalid or expired reset token" |}).
Proof.
  intros Hfind Hothers. rewrite resetPassword_cases, Hfind.
  assert (Hin : user ∈ l) by (by apply find_elem in Hfind as [? _]).
  eexists. split; [reflexivity|]. split.
  - apply find_saved.
    + cbn. apply String.eqb_refl.
    + by exists user.
    + intros v _ Hne. by apply String.eqb_neq.
  - intros now2 pw2 sent2. rewrite resetPassword_cases.
    rewrite find_saved_none; [done|done|].
    by apply token_filter_others.
Qed.

Lemma reset_token_works_once_witness :
  ∃ l1,
    resetPassword env_up 2000 "t0k3n" (Some "new")
      [ben; set_reset (Some (sha256_hex env_up "t0k3n")) (Some 601000) ann] []
    = (l1, [], Sent 200 "Password reset successful") ∧
    List.find (λ v, String.eqb (account_id v)
                      (account_id (set_reset (Some (sha256_hex env_up "t0k3n"))
                                     (Some 601000) ann))) l1
    = Some (set_reset None None
              (set_password (Some "new")
                 (set_reset (Some (sha256_hex env_up "t0k3n")) (Some 601000) ann))) ∧
    ∀ now2 pw2 sent2,
      resetPassword env_up now2 "t0k3n" pw2 l1 sent2
      = (l1, sent2, Failed 400 {| message := "Invalid or expired reset token" |}).
Proof.
  apply (reset_token_works_once env_up 2000 "t0k3n" (Some "new")
           [ben; set_reset (Some (sha256_hex env_up "t0k3n")) (Some 601000) ann] []
           (set_reset (Some (sha256_hex env_up "t0k3n")) (Some 601000) ann)).
  - reflexivity.
  - intros v Hv Hne. apply elem_of_cons in Hv as [-> | Hv]; [discriminate|].
    apply elem_of_cons in Hv as [-> | Hv]; [done|]. by apply elem_of_nil in Hv.
Defined.

(** X19. The two handlers fail without a trace. A reset request for an
    address that no account has answers 404 "No user found with this
    email"; a reset with a token whose digest no account holds unexpired
    answers 400 "Invalid or expired reset token", whatever the reason (never
    issued, expired, already used). In both cases the accounts are what they
    were and no mail is sent. *)
Theorem reset_failures_change_nothing env tok now mail_address pw l sent :
  ((∀ v, v ∈ l → account_email v ≠ mail_address) →
   forgotPassword env tok now mail_address l sent
   = (l, sent, Failed 404 {| message := "No user found with this email" |}))
  ∧
  ((∀ v, v ∈ l → holds (sha256_hex env tok) v →
         ∃ e, resetPasswordExpire v = Some e ∧ e ≤ now) →
   resetPassword env now tok pw l sent
   = (l, sent, Failed 400 {| message := "Invalid or expired reset token" |})).
Proof.
  split.
  - intros Hnone. rewrite forgotPassword_cases, find_none_all; [done|].
    intros v Hv. by apply String.eqb_neq, Hnone.
  - intros Hexp. rewrite resetPassword_cases, find_none_all; [done|].
    intros v Hv. destruct (token_filter _ now v) eqn:E; [|done].
    destruct (Hexp v Hv (token_filter_holds _ _ _ E)) as (e & He & Hle).
    unfold token_filter in E. rewrite He in E.
    destruct (resetPasswordToken v); [|done].
    apply andb_prop in E as [_ E]. lia.
Qed.

Lemma reset_failures_change_nothing_witness :
  forgotPassword env_up "t0k3n" 1000 "zoe@example.com" [ben; ann] []
  = ([ben; ann], [], Failed 404 {| message := "No user found with this email" |})
  ∧ resetPassword env_up 1000 "t0k3n" (Some "new") [ben; ann] []
    = ([ben; ann], [], Failed 400 {| message := "Invalid or expired reset token" |}).
Proof.
  destruct (reset_failures_change_nothing env_up "t0k3n" 1000 "zoe@example.com"
              (Some "new") [ben; ann] []) as [Hforgot Hreset].
  split.
  - apply Hforgot. intros v Hv.
    apply elem_of_cons in Hv as [-> | Hv]; [discriminate|].
    apply elem_of_cons in Hv as [-> | Hv]; [discriminate|].
    by apply elem_of_nil in Hv.
  - apply Hreset. intros v Hv Hh.
    apply elem_of_cons in Hv as [-> | Hv]; [discriminate|].
    apply elem_of_cons in Hv as [-> | Hv]; [discriminate|].
    by apply elem_of_nil in Hv.
Defined.

Lemma find_email_saved mail_address user user1 (l : list Account) :
  List.find (λ u, String.eqb (account_email u) mail_address) l = Some user →
  account_email user1 = account_email user →
  account_id user1 = account_id user →
  List.find (λ u, String.eqb (account_email u) mail_address) (saved user1 l)
  = Some user1.
Proof.
  intros Hfind Hmail Hid.
  assert (Hm1 : String.eqb (account_email user1) mail_address = true).
  { apply find_elem in Hfind as [_ H]. by rewrite Hmail. }
  induction l as [|v l IH]; [done|]. cbn in Hfind |- *.
  destruct (String.eqb (account_id v) (account_id user1)) eqn:E.
  - by rewrite Hm1.
  - destruct (String.eqb (account_email v) mail_address) eqn:Ev.
    + injection Hfind as ->. by rewrite Hid, String.eqb_refl in E.
    + by apply IH.
Qed.

(** X20. A new reset request replaces the old token. After two requests
    for the same address, with tokens of different digests, the first token
    is dead even inside its ten minutes: a reset with it answers 400 and
    changes nothing, provided no other account holds its digest. *)
Theorem new_request_kills_old_token
    env tok1 tok2 now1 now2 mail_address l sent user l1 sent1 out1 l2 sent2 out2 :
  List.find (λ u, String.eqb (account_email u) mail_address) l = Some user →
  (∀ v, v ∈ l → account_id v ≠ account_id user → ¬ holds (sha256_hex env tok1) v) →
  sha256_hex env tok1 ≠ sha256_hex env tok2 →
  forgotPassword env tok1 now1 mail_address l sent = (l1, sent1, out1) →
  forgotPassword env tok2 now2 mail_address l1 sent1 = (l2, sent2, out2) →
  l2 = saved (set_reset (Some (sha256_hex env tok2)) (Some (now2 + 600000)) user) l
  ∧ ∀ now3 pw sent3,
      resetPassword env now3 tok1 pw l2 sent3
      = (l2, sent3, Failed 400 {| message := "Invalid or expired reset token" |}).
Proof.
  intros Hfind Hothers Hdiff H1 H2.
  rewrite forgotPassword_cases, Hfind in H1. injection H1 as <- _ _.
  rewrite forgotPassword_cases in H2.
  erewrite find_email_saved in H2; [|exact Hfind|done|done].
  injection H2 as <- _ _.
  rewrite saved_saved by done.
  split; [done|].
  intros now3 pw sent3. rewrite resetPassword_cases.
  rewrite find_saved_none; [done|..].
  - unfold token_filter. cbn.
    destruct (String.eqb (sha256_hex env tok2) (sha256_hex env tok1)) eqn:E; [|done].
    apply String.eqb_eq in E. congruence.
  - by apply token_filter_others.
Qed.

Lemma new_request_kills_old_token_witness :
  saved (set_reset (Some (sha256_hex env_up "second")) (Some (2000 + 600000)) ann)
    [ben; ann]
  = saved (set_reset (Some (sha256_hex env_up "second")) (Some (2000 + 600000)) ann)
      [ben; ann]
  ∧ ∀ now3 pw sent3,
      resetPassword env_up now3 "first" pw
        (saved (set_reset (Some (sha256_hex env_up "second")) (Some (2000 + 600000)) ann)
           [ben; ann]) sent3
      = (saved (set_reset (Some (sha256_hex env_up "second")) (Some (2000 + 600000)) ann)
           [ben; ann],
         sent3, Failed 400 {| message := "Invalid or expired reset token" |}).
Proof.
  apply (new_request_kills_old_token env_up "first" "second" 1000 2000
           "ann@example.com" [ben; ann] [] ann
           (saved (set_reset (Some (sha256_hex env_up "first")) (Some (1000 + 600000)) ann)
              [ben; ann])
           [reset_mail env_up ann "first"]
           (Sent 200 "Password reset email sent")
           (saved (set_reset (Some (sha256_hex env_up "second")) (Some (2000 + 600000)) ann)
              [ben; ann])
           [reset_mail env_up ann "first"; reset_mail env_up ann "second"]
           (Sent 200 "Password reset email sent")).
  - reflexivity.
  - intros v Hv Hne. apply elem_of_cons in Hv as [-> | Hv]; [discriminate|].
    apply elem_of_cons in Hv as [-> | Hv]; [done|]. by apply elem_of_nil in Hv.
  - discriminate.
  - reflexivity.
  - reflexivity.
Defined.

End ResetFacts.
